(** * Quick Clip Manager: the quick-input overlay of [main.py]

    A shallow embedding of the quick-input subsystem of [QuickClipManager]
    (the overlay window, its suggestion list, the alias queries it sends to
    SQLite and the clipboard commit), followed by the properties of the
    specification settled against it.

    Text is modelled by [string], read as a sequence of characters in the
    range U+0000 to U+00FF, one [ascii] per character.  Python and SQLite
    are modelled as they act on these characters: [str.lower] folds the
    capitals of the whole range and [str.strip] strips its white space,
    U+0085 and U+00A0 included, while SQLite's [LOWER], [LIKE] and
    [NOCASE] fold the letters A to Z only. *)

From Stdlib Require Import List String Ascii Bool Arith ZArith Lia.
From Stdlib Require Import Sorted Permutation.
Import ListNotations.
Local Open Scope string_scope.

(** ** Python string methods used by the handlers *)

Module Py.

(** [str.isspace] on one character: TAB, LF, VT, FF, CR, the four
    separators FS..US, the space, NEL (U+0085) and the no-break space
    (U+00A0). *)
Definition isspace (c : ascii) : bool :=
  let n := nat_of_ascii c in
  (((9 <=? n) && (n <=? 13)) || ((28 <=? n) && (n <=? 32))
   || (n =? 133) || (n =? 160))%nat.

Fixpoint lstrip (s : string) : string :=
  match s with
  | EmptyString => EmptyString
  | String c s' => if isspace c then lstrip s' else s
  end.

Fixpoint rstrip (s : string) : string :=
  match s with
  | EmptyString => EmptyString
  | String c s' =>
      match rstrip s' with
      | EmptyString => if isspace c then EmptyString else String c EmptyString
      | r => String c r
      end
  end.

(** [s.strip()] *)
Definition strip (s : string) : string := rstrip (lstrip s).

(** [s.startswith(p)] *)
Fixpoint startswith (s p : string) {struct p} : bool :=
  match p with
  | EmptyString => true
  | String a p' =>
      match s with
      | EmptyString => false
      | String b s' => Ascii.eqb a b && startswith s' p'
      end
  end.

(** [s[1:]] *)
Definition slice_from_1 (s : string) : string :=
  match s with
  | EmptyString => EmptyString
  | String _ s' => s'
  end.

(** [s[:n]] *)
Fixpoint slice_to (n : nat) (s : string) : string :=
  match n, s with
  | S n', String c s' => String c (slice_to n' s')
  | _, _ => EmptyString
  end.

(** [str.lower] on one character: the capitals are A to Z, U+00C0 to
    U+00D6 and U+00D8 to U+00DE, each 32 below its small letter. *)
Definition lower_char (c : ascii) : ascii :=
  let n := nat_of_ascii c in
  if (((65 <=? n) && (n <=? 90)) || ((192 <=? n) && (n <=? 214))
      || ((216 <=? n) && (n <=? 222)))%nat
  then ascii_of_nat (n + 32) else c.

(** [s.lower()] *)
Fixpoint lower (s : string) : string :=
  match s with
  | EmptyString => EmptyString
  | String c s' => String (lower_char c) (lower s')
  end.

Fixpoint spaces (n : nat) : string :=
  match n with
  | O => EmptyString
  | S n' => String " " (spaces n')
  end.

(** [s.ljust(n)] *)
Definition ljust (s : string) (n : nat) : string :=
  s ++ spaces (n - String.length s).

(** [max(xs)] on a sequence of lengths; [None] stands for the
    [ValueError] Python raises on an empty sequence. *)
Definition max_of (xs : list nat) : option nat :=
  match xs with
  | [] => None
  | x :: xs' => Some (fold_left Nat.max xs' x)
  end.

End Py.

(** ** The [aliases] table and the SQL the overlay runs on it *)

(** One row of [aliases], projected on [(alias, content)]. *)
Definition row : Type := string * string.

Definition alias_of (r : row) : string := fst r.
Definition content_of (r : row) : string := snd r.

Module Sql.

(** SQLite folds the letters A to Z and no other. *)
Definition lower_char (c : ascii) : ascii :=
  let n := nat_of_ascii c in
  if ((65 <=? n) && (n <=? 90))%nat then ascii_of_nat (n + 32) else c.

(** [LOWER(x)] *)
Fixpoint LOWER (s : string) : string :=
  match s with
  | EmptyString => EmptyString
  | String c s' => String (lower_char c) (LOWER s')
  end.

(** [LENGTH(x)] *)
Definition LENGTH (s : string) : nat := String.length s.

(** [x = y COLLATE NOCASE] *)
Definition eq_nocase (x y : string) : bool :=
  String.eqb (LOWER x) (LOWER y).

(** [s LIKE p] without an ESCAPE clause: [%] matches any run of
    characters, [_] matches exactly one, any other character matches
    itself up to the case of the letters A to Z. *)
Fixpoint LIKE (s p : string) {struct p} : bool :=
  match p with
  | EmptyString =>
      match s with EmptyString => true | String _ _ => false end
  | String c p' =>
      if Ascii.eqb c "%" then
        (fix any (s : string) : bool :=
           LIKE s p' ||
           match s with
           | EmptyString => false
           | String _ s' => any s'
           end) s
      else
        match s with
        | EmptyString => false
        | String d s' =>
            (Ascii.eqb c "_" || Ascii.eqb (lower_char c) (lower_char d))
            && LIKE s' p'
        end
  end.

(** [ORDER BY]: a stable sort of the scanned rows under the ordering
    terms, given as a decidable "less or equal". *)
Section OrderBy.
Context {A : Type} (le : A -> A -> bool).

Fixpoint insert (x : A) (l : list A) : list A :=
  match l with
  | [] => [x]
  | y :: l' => if le x y then x :: l else y :: insert x l'
  end.

Definition order_by (l : list A) : list A := fold_right insert [] l.
End OrderBy.

(** [LIMIT n] *)
Definition LIMIT {A : Type} (n : nat) (l : list A) : list A := firstn n l.

(** The [CASE] expression of the suggestion query. *)
Definition case_tier (search_text : string) (r : row) : nat :=
  if String.eqb (LOWER (alias_of r)) search_text then 0
  else if LIKE (LOWER (alias_of r)) (search_text ++ "%") then 1
  else 2.

(** [ORDER BY CASE ... END, LENGTH(alias), alias] *)
Definition le_tier_length_alias (search_text : string) (r1 r2 : row) : bool :=
  let t1 := case_tier search_text r1 in
  let t2 := case_tier search_text r2 in
  let n1 := LENGTH (alias_of r1) in
  let n2 := LENGTH (alias_of r2) in
  if (t1 <? t2)%nat then true
  else if (t2 <? t1)%nat then false
  else if (n1 <? n2)%nat then true
  else if (n2 <? n1)%nat then false
  else String.leb (alias_of r1) (alias_of r2).

(** [ORDER BY LENGTH(alias), alias] *)
Definition le_length_alias (r1 r2 : row) : bool :=
  let n1 := LENGTH (alias_of r1) in
  let n2 := LENGTH (alias_of r2) in
  if (n1 <? n2)%nat then true
  else if (n2 <? n1)%nat then false
  else String.leb (alias_of r1) (alias_of r2).

(** [ORDER BY alias] *)
Definition le_alias (r1 r2 : row) : bool :=
  String.leb (alias_of r1) (alias_of r2).

(** [SELECT alias, content FROM aliases WHERE LOWER(alias) LIKE ?
     ORDER BY CASE WHEN LOWER(alias) = ? THEN 0
                   WHEN LOWER(alias) LIKE ? THEN 1 ELSE 2 END,
              LENGTH(alias), alias LIMIT 10]
    with parameters [('%' + t + '%', t, t + '%')]. *)
Definition select_suggestions (search_text : string) (table : list row)
  : list row :=
  LIMIT 10
    (order_by (le_tier_length_alias search_text)
       (filter (fun r => LIKE (LOWER (alias_of r)) ("%" ++ search_text ++ "%"))
          table)).

(** [SELECT alias, content FROM aliases ORDER BY alias LIMIT 10] *)
Definition select_all (table : list row) : list row :=
  LIMIT 10 (order_by le_alias table).

(** [SELECT content FROM aliases WHERE LOWER(alias) = ? COLLATE NOCASE],
    read with [fetchone()]: the first matching row of the table scan. *)
Definition select_exact (search_text : string) (table : list row)
  : option string :=
  option_map content_of
    (find (fun r => eq_nocase (LOWER (alias_of r)) search_text) table).

(** [SELECT content FROM aliases WHERE LOWER(alias) LIKE ? COLLATE NOCASE
     ORDER BY LENGTH(alias), alias LIMIT 1], read with [fetchone()]. *)
Definition select_partial (search_text : string) (table : list row)
  : option string :=
  option_map content_of
    (hd_error
       (LIMIT 1
          (order_by le_length_alias
             (filter
                (fun r => LIKE (LOWER (alias_of r)) ("%" ++ search_text ++ "%"))
                table)))).

End Sql.

(** ** Application state, outputs and exceptions *)

Inductive exn_class : Type :=
| Sqlite3Error
| PyperclipException
| ValueError
| IndexError.

(** A raised Python exception: its class and [str(e)]. *)
Record exn : Type := Exn { exn_kind : exn_class; exn_str : string }.

(** What a handler sends out of the program, in the order it does so. *)
Inductive output : Type :=
| PrintLine (line : string)
| PrintFoundMatches (search_text : string) (matches : list row)
| PrintSearchResult (result : option string)
| PrintTraceback (e : exn)
| Notification (message : string)
| ClipboardCopy (content : string).

(** The two widgets of the overlay that take keyboard focus. *)
Inductive widget : Type :=
| QuickEntry
| SuggestionListbox.

(** [tk.Listbox]: its display lines and the selected indices, ascending. *)
Record listbox : Type := Listbox {
  lb_items : list string;
  lb_selection : list Z
}.

(** The fields of [QuickClipManager] the overlay reads and writes, once
    [setup_main_window] has created both windows. *)
Record app : Type := App {
  is_quick_window_visible : bool;
  quick_window_mapped : bool;
  suggestion_window_mapped : bool;
  quick_entry : string;
  suggestion_listbox : listbox;
  current_suggestions : list row;
  focus : widget;
  out : list output
}.

(** The collaborators a handler calls out to: the SQLite connection, which
    either answers from the table or raises [sqlite3.Error], whatever
    the cause (a closed or locked database, a pattern SQLite refuses as
    too long), and [pyperclip.copy], which either succeeds or raises. *)
Inductive database : Type :=
| Db (table : list row)
| DbBroken (message : string).

Record world : Type := World {
  db : database;
  clipboard_error : option string
}.

(** ** Handlers as state-passing computations that may raise *)

Inductive outcome (A : Type) : Type :=
| Returned (a : A)
| Raised (e : exn).
Arguments Returned {A} a.
Arguments Raised {A} e.

Definition M (A : Type) : Type := app -> outcome A * app.

Definition ret {A : Type} (a : A) : M A := fun s => (Returned a, s).

Definition bind {A B : Type} (m : M A) (k : A -> M B) : M B :=
  fun s =>
    match m s with
    | (Returned a, s') => k a s'
    | (Raised e, s') => (Raised e, s')
    end.

Definition raise {A : Type} (e : exn) : M A := fun s => (Raised e, s).

(** [try: m  except Exception as e: h e] *)
Definition try_except {A : Type} (m : M A) (h : exn -> M A) : M A :=
  fun s =>
    match m s with
    | (Returned a, s') => (Returned a, s')
    | (Raised e, s') => h e s'
    end.

(** [try: m  except sqlite3.Error as e: h e] *)
Definition try_except_sqlite3 {A : Type} (m : M A) (h : exn -> M A) : M A :=
  fun s =>
    match m s with
    | (Returned a, s') => (Returned a, s')
    | (Raised e, s') =>
        match exn_kind e with
        | Sqlite3Error => h e s'
        | _ => (Raised e, s')
        end
    end.

Definition gets {A : Type} (f : app -> A) : M A := fun s => (Returned (f s), s).
Definition modify (f : app -> app) : M unit := fun s => (Returned tt, f s).

Declare Scope py_scope.
Delimit Scope py_scope with py.
Notation "x <- m ;; k" := (bind m (fun x => k))
  (at level 61, m at next level, right associativity) : py_scope.
Notation "m ;; k" := (bind m (fun _ => k))
  (at level 61, right associativity) : py_scope.
Local Open Scope py_scope.

Fixpoint for_each {A : Type} (l : list A) (body : A -> M unit) : M unit :=
  match l with
  | [] => ret tt
  | x :: l' => body x ;; for_each l' body
  end.

(** *** Field updates *)

Definition set_is_quick_window_visible (b : bool) (s : app) : app :=
  App b (quick_window_mapped s) (suggestion_window_mapped s) (quick_entry s)
      (suggestion_listbox s) (current_suggestions s) (focus s) (out s).

Definition set_quick_window_mapped (b : bool) (s : app) : app :=
  App (is_quick_window_visible s) b (suggestion_window_mapped s) (quick_entry s)
      (suggestion_listbox s) (current_suggestions s) (focus s) (out s).

Definition set_suggestion_window_mapped (b : bool) (s : app) : app :=
  App (is_quick_window_visible s) (quick_window_mapped s) b (quick_entry s)
      (suggestion_listbox s) (current_suggestions s) (focus s) (out s).

Definition set_quick_entry (t : string) (s : app) : app :=
  App (is_quick_window_visible s) (quick_window_mapped s)
      (suggestion_window_mapped s) t
      (suggestion_listbox s) (current_suggestions s) (focus s) (out s).

Definition set_suggestion_listbox (l : listbox) (s : app) : app :=
  App (is_quick_window_visible s) (quick_window_mapped s)
      (suggestion_window_mapped s) (quick_entry s)
      l (current_suggestions s) (focus s) (out s).

Definition set_current_suggestions (c : list row) (s : app) : app :=
  App (is_quick_window_visible s) (quick_window_mapped s)
      (suggestion_window_mapped s) (quick_entry s)
      (suggestion_listbox s) c (focus s) (out s).

Definition set_focus (w : widget) (s : app) : app :=
  App (is_quick_window_visible s) (quick_window_mapped s)
      (suggestion_window_mapped s) (quick_entry s)
      (suggestion_listbox s) (current_suggestions s) w (out s).

Definition emit (o : output) (s : app) : app :=
  App (is_quick_window_visible s) (quick_window_mapped s)
      (suggestion_window_mapped s) (quick_entry s)
      (suggestion_listbox s) (current_suggestions s) (focus s) (out s ++ [o]).

(** *** Primitive calls *)

Definition print (line : string) : M unit := modify (emit (PrintLine line)).
Definition print_traceback (e : exn) : M unit := modify (emit (PrintTraceback e)).

(** [self.cursor.execute(q); self.cursor.fetch...()] *)
Definition cursor_query {A : Type} (w : world) (q : list row -> A) : M A :=
  match db w with
  | Db table => ret (q table)
  | DbBroken message => raise (Exn Sqlite3Error message)
  end.

(** [pyperclip.copy(content)] *)
Definition pyperclip_copy (w : world) (content : string) : M unit :=
  match clipboard_error w with
  | None => modify (emit (ClipboardCopy content))
  | Some message => raise (Exn PyperclipException message)
  end.

(** [max(...)] of a generator of lengths. *)
Definition py_max (xs : list nat) : M nat :=
  match Py.max_of xs with
  | Some n => ret n
  | None => raise (Exn ValueError "max() arg is an empty sequence")
  end.

(** [self.suggestion_listbox.delete(0, tk.END)] *)
Definition listbox_delete_all : M unit :=
  modify (set_suggestion_listbox (Listbox [] [])).

(** [self.suggestion_listbox.insert(tk.END, text)] *)
Definition listbox_insert_end (text : string) : M unit :=
  modify (fun s =>
    set_suggestion_listbox
      (Listbox (lb_items (suggestion_listbox s) ++ [text])
               (lb_selection (suggestion_listbox s))) s).

Fixpoint insert_index (i : Z) (l : list Z) : list Z :=
  match l with
  | [] => [i]
  | j :: l' =>
      if (i <? j)%Z then i :: l
      else if (i =? j)%Z then l
      else j :: insert_index i l'
  end.

(** [self.suggestion_listbox.selection_set(i)]; an index past the last
    item selects nothing. *)
Definition listbox_selection_set (i : Z) : M unit :=
  modify (fun s =>
    let lb := suggestion_listbox s in
    if ((0 <=? i) && (i <? Z.of_nat (List.length (lb_items lb))))%Z
    then set_suggestion_listbox
           (Listbox (lb_items lb) (insert_index i (lb_selection lb))) s
    else s).

(** [self.suggestion_listbox.selection_clear(0, tk.END)] *)
Definition listbox_selection_clear_all : M unit :=
  modify (fun s =>
    set_suggestion_listbox (Listbox (lb_items (suggestion_listbox s)) []) s).

(** [self.suggestion_listbox.selection_clear(i)] *)
Definition listbox_selection_clear (i : Z) : M unit :=
  modify (fun s =>
    let lb := suggestion_listbox s in
    set_suggestion_listbox
      (Listbox (lb_items lb)
               (filter (fun j => negb (j =? i)%Z) (lb_selection lb))) s).

(** ** The methods of [QuickClipManager]

    Each method keeps its [try]/[except] structure.  The Tk calls that
    only place, size or raise a window leave no trace in [app]; the
    calls that map or withdraw a window, move the focus or edit a widget
    do, and are taken to succeed. *)

(** [show_notification]: the popup is recorded as an output. *)
Definition show_notification (message : string) : M unit :=
  modify (emit (Notification message)).

(** The line [show_suggestions] puts in the list box for one match. *)
Definition display_text (max_alias_length : nat) (r : row) : string :=
  Py.ljust (alias_of r) (max_alias_length + 2) ++ " | "
    ++ Py.slice_to 50 (content_of r)
    ++ (if (50 <? String.length (content_of r))%nat then "..." else "").

(** [show_suggestions(matches)]: the list box and [current_suggestions]
    are rebuilt from the matches, then the suggestion window is mapped. *)
Definition show_suggestions (matches : list row) : M unit :=
  try_except
    (listbox_delete_all ;;
     modify (set_current_suggestions []) ;;
     max_alias_length <- py_max (map (fun r => String.length (alias_of r)) matches) ;;
     for_each matches (fun r =>
       listbox_insert_end (display_text max_alias_length r) ;;
       modify (fun s =>
         set_current_suggestions (current_suggestions s ++ [r]) s)) ;;
     items <- gets (fun s => lb_items (suggestion_listbox s)) ;;
     _ <- py_max (map String.length items) ;;
     modify (set_suggestion_window_mapped true))
    (fun e =>
       print ("Error showing suggestions: " ++ exn_str e) ;;
       print_traceback e).

(** [hide_suggestions()] *)
Definition hide_suggestions : M unit :=
  try_except
    (modify (set_suggestion_window_mapped false) ;;
     modify (set_current_suggestions []))
    (fun e => print ("Error hiding suggestions: " ++ exn_str e)).

(** [update_suggestions(event)], bound to [<KeyRelease>] on the entry. *)
Definition update_suggestions (w : world) : M unit :=
  try_except
    (text <- gets (fun s => Py.strip (quick_entry s)) ;;
     if Py.startswith text "/" then
       let search_text := Py.lower (Py.slice_from_1 text) in
       match search_text with
       | String _ _ =>
           matches <- cursor_query w (Sql.select_suggestions search_text) ;;
           modify (emit (PrintFoundMatches search_text matches)) ;;
           match matches with
           | _ :: _ => show_suggestions matches
           | [] => hide_suggestions
           end
       | EmptyString =>
           matches <- cursor_query w Sql.select_all ;;
           match matches with
           | _ :: _ => show_suggestions matches
           | [] => hide_suggestions
           end
       end
     else hide_suggestions)
    (fun e =>
       print ("Error updating suggestions: " ++ exn_str e) ;;
       print_traceback e).

(** [hide_quick_input()] *)
Definition hide_quick_input : M unit :=
  try_except
    (modify (set_quick_window_mapped false) ;;
     modify (set_suggestion_window_mapped false) ;;
     modify (set_is_quick_window_visible false))
    (fun e =>
       print ("Error hiding quick input: " ++ exn_str e) ;;
       print_traceback e).

(** [show_quick_input()]; [quick_window] exists, so it is not created
    again. *)
Definition show_quick_input : M unit :=
  try_except
    (modify (set_quick_entry "") ;;
     modify (set_quick_window_mapped true) ;;
     modify (set_focus QuickEntry) ;;
     modify (set_is_quick_window_visible true))
    (fun e =>
       print ("Error showing quick input: " ++ exn_str e) ;;
       print_traceback e).

(** [toggle_quick_input()], run by the hotkey and by [<Escape>] on the
    entry. *)
Definition toggle_quick_input : M unit :=
  try_except
    (visible <- gets is_quick_window_visible ;;
     if visible then hide_quick_input else show_quick_input)
    (fun e =>
       print ("Error toggling quick input: " ++ exn_str e) ;;
       print_traceback e).

(** [use_suggestion(event)], bound to [<Return>] and to a double click
    on the list box. *)
Definition use_suggestion (w : world) : M unit :=
  try_except
    (selection <- gets (fun s => lb_selection (suggestion_listbox s)) ;;
     match selection with
     | [] => ret tt
     | index :: _ =>
         suggestions <- gets current_suggestions ;;
         if ((0 <=? index) && (index <? Z.of_nat (List.length suggestions)))%Z
         then
           match nth_error suggestions (Z.to_nat index) with
           | Some (alias, content) =>
               print ("Using suggestion: " ++ alias ++ " with content: " ++ content) ;;
               pyperclip_copy w content ;;
               hide_quick_input ;;
               show_notification ("Copied: " ++ alias)
           | None => raise (Exn IndexError "list index out of range")
           end
         else ret tt
     end)
    (fun e =>
       print ("Error using suggestion: " ++ exn_str e) ;;
       print_traceback e).

(** [process_quick_input(event)], bound to [<Return>] on the entry. *)
Definition process_quick_input (w : world) : M unit :=
  try_except
    (text <- gets (fun s => Py.strip (quick_entry s)) ;;
     (if Py.startswith text "/" then
        let search_text := Py.lower (Py.slice_from_1 text) in
        print ("Processing input: " ++ search_text) ;;
        try_except_sqlite3
          (exact <- cursor_query w (Sql.select_exact search_text) ;;
           result <-
             match exact with
             | Some _ => ret exact
             | None => cursor_query w (Sql.select_partial search_text)
             end ;;
           modify (emit (PrintSearchResult result)) ;;
           match result with
           | Some content =>
               print ("Copying content: " ++ content) ;;
               try_except
                 (pyperclip_copy w content ;;
                  print "Content copied successfully" ;;
                  hide_quick_input ;;
                  show_notification "Copied content to clipboard")
                 (fun e =>
                    print ("Clipboard error: " ++ exn_str e) ;;
                    show_notification
                      ("Error copying to clipboard: " ++ exn_str e))
           | None =>
               print ("No match found for: " ++ search_text) ;;
               show_notification ("No match found for: " ++ search_text)
           end)
          (fun e =>
             print ("Database error: " ++ exn_str e) ;;
             show_notification ("Database error: " ++ exn_str e))
      else ret tt) ;;
     modify (set_quick_entry ""))
    (fun e =>
       print ("Error in process_quick_input: " ++ exn_str e) ;;
       print_traceback e ;;
       show_notification ("Error: " ++ exn_str e)).

(** [focus_suggestions]; the result is [true] for the string "break". *)
Definition focus_suggestions : M bool :=
  viewable <- gets suggestion_window_mapped ;;
  if viewable then
    modify (set_focus SuggestionListbox) ;;
    size <- gets (fun s => List.length (lb_items (suggestion_listbox s))) ;;
    (if (0 <? size)%nat then listbox_selection_set 0 else ret tt) ;;
    ret true
  else ret false.

Inductive keysym : Type := Up | Down | Tab.

(** [handle_quick_entry_keys(event)] *)
Definition handle_quick_entry_keys (k : keysym) : M bool :=
  viewable <- gets suggestion_window_mapped ;;
  if negb viewable then ret false
  else
    match k with
    | Down | Tab =>
        modify (set_focus SuggestionListbox) ;;
        listbox_selection_clear_all ;;
        listbox_selection_set 0 ;;
        ret true
    | Up => ret false
    end.

(** [handle_suggestion_keys(event)] *)
Definition handle_suggestion_keys (k : keysym) : M bool :=
  current_selection <- gets (fun s => lb_selection (suggestion_listbox s)) ;;
  size <- gets (fun s => Z.of_nat (List.length (lb_items (suggestion_listbox s)))) ;;
  match current_selection with
  | [] =>
      match k with
      | Down | Tab => listbox_selection_set 0 ;; ret true
      | Up => modify (set_focus QuickEntry) ;; ret true
      end
  | current_index :: _ =>
      match k with
      | Up =>
          if (current_index =? 0)%Z then
            listbox_selection_clear 0 ;;
            modify (set_focus QuickEntry) ;;
            ret true
          else
            listbox_selection_clear_all ;;
            listbox_selection_set (current_index - 1) ;;
            ret true
      | Down | Tab =>
          if (current_index <? size - 1)%Z then
            listbox_selection_clear_all ;;
            listbox_selection_set (current_index + 1) ;;
            ret true
          else ret false
      end
  end.

(** [handle_suggestion_click(event)] *)
Definition handle_suggestion_click : M unit :=
  selection <- gets (fun s => lb_selection (suggestion_listbox s)) ;;
  match selection with
  | _ :: _ => modify (set_focus SuggestionListbox)
  | [] => ret tt
  end.

(** ** Event bindings *)

(** The events bound in [create_quick_input_window] and
    [create_suggestion_window]. *)
Inductive tk_event : Type :=
| Key_Return
| Key_Escape
| Key_Up
| Key_Down
| Key_Tab
| KeyRelease
| Double_Button_1
| Button_1.

Definition discard {A : Type} (m : M A) : M unit := m ;; ret tt.

(** The handler a widget runs for an event.  [<Down>] on the entry ends up
    bound to [focus_suggestions]: [create_suggestion_window] binds it to
    [handle_quick_entry_keys] first and [create_quick_input_window] rebinds
    it afterwards. *)
Definition binding (target : widget) (ev : tk_event) (w : world) : M unit :=
  match target, ev with
  | QuickEntry, Key_Return => process_quick_input w
  | QuickEntry, Key_Escape => toggle_quick_input
  | QuickEntry, KeyRelease => update_suggestions w
  | QuickEntry, Key_Down => discard focus_suggestions
  | QuickEntry, Key_Up => discard (handle_quick_entry_keys Up)
  | QuickEntry, Key_Tab => discard (handle_quick_entry_keys Tab)
  | QuickEntry, (Double_Button_1 | Button_1) => ret tt
  | SuggestionListbox, Key_Return => use_suggestion w
  | SuggestionListbox, Key_Escape => hide_suggestions
  | SuggestionListbox, Double_Button_1 => use_suggestion w
  | SuggestionListbox, Button_1 => handle_suggestion_click
  | SuggestionListbox, Key_Up => discard (handle_suggestion_keys Up)
  | SuggestionListbox, Key_Down => discard (handle_suggestion_keys Down)
  | SuggestionListbox, Key_Tab => discard (handle_suggestion_keys Tab)
  | SuggestionListbox, KeyRelease => ret tt
  end.

(** A keyboard event goes to the widget that has the focus. *)
Definition on_key (ev : tk_event) (w : world) : M unit :=
  target <- gets focus ;;
  binding target ev w.

(** The state a handler leaves behind. *)
Definition exec {A : Type} (m : M A) (s : app) : app := snd (m s).

(** ** The states of the overlay, read off the application state *)

Inductive overlay_state : Type :=
| HIDDEN
| VISIBLE_NO_SUGGESTIONS
| VISIBLE_WITH_SUGGESTIONS (focus : widget).

(** The overlay is hidden when [is_quick_window_visible] is false; when it
    is visible, it has suggestions exactly when the suggestion window is
    on screen. *)
Definition overlay (s : app) : overlay_state :=
  if is_quick_window_visible s then
    if suggestion_window_mapped s
    then VISIBLE_WITH_SUGGESTIONS (focus s)
    else VISIBLE_NO_SUGGESTIONS
  else HIDDEN.

Definition visible (s : app) : Prop := overlay s <> HIDDEN.

(** The clipboard writes among a list of outputs. *)
Definition clipboard_writes (o : list output) : list string :=
  flat_map (fun x => match x with ClipboardCopy c => [c] | _ => [] end) o.

(** The application right after start-up: overlay withdrawn, nothing
    typed, nothing suggested. *)
Definition initial : app :=
  App false false false "" (Listbox [] []) [] QuickEntry [].

(** ** Vocabulary of the statements *)

(** The text a handler works on: the entry content, stripped. *)
Definition query_text (s : app) : string := Py.strip (quick_entry s).

(** Whether that text starts with the trigger character. *)
Definition is_query (s : app) : bool := Py.startswith (query_text s) "/".

(** [search_text] of [update_suggestions] and [process_quick_input]. *)
Definition search_text_of (s : app) : string :=
  Py.lower (Py.slice_from_1 (query_text s)).

(** What the two queries of [process_quick_input] leave in [result]. *)
Definition resolve (search_text : string) (table : list row) : option string :=
  match Sql.select_exact search_text table with
  | Some content => Some content
  | None => Sql.select_partial search_text table
  end.

(** The rows a key release asks the store for. *)
Definition suggestion_rows (search_text : string) (table : list row) : list row :=
  match search_text with
  | String _ _ => Sql.select_suggestions search_text table
  | EmptyString => Sql.select_all table
  end.

(** What a key release adds to the output before it shows or hides. *)
Definition found_matches_line (search_text : string) (matches : list row)
  : list output :=
  match search_text with
  | String _ _ => [PrintFoundMatches search_text matches]
  | EmptyString => []
  end.

Definition emit_all (os : list output) (s : app) : app :=
  fold_left (fun s o => emit o s) os s.

(** [s LIKE '%' || p]: some suffix of [s] matches [p]. *)
Definition like_suffix (p : string) : string -> bool :=
  fix any (s : string) : bool :=
    Sql.LIKE s p ||
    match s with
    | EmptyString => false
    | String _ s' => any s'
    end.

(** A text without any of the letters A to Z: SQLite's folding leaves it
    alone. *)
Definition lowercase (s : string) : Prop := Sql.LOWER s = s.

(** No [%] and no [_] in a search text. *)
Fixpoint wildcard_free (t : string) : bool :=
  match t with
  | EmptyString => true
  | String c t' =>
      negb (Ascii.eqb c "%") && negb (Ascii.eqb c "_") && wildcard_free t'
  end.

(** The ranking in the words of the specification, to be compared with
    what the SQL of the handlers computes. *)
Module Spec.

(** [t] occurs in [s]. *)
Fixpoint contains (s t : string) : bool :=
  Py.startswith s t ||
  match s with
  | EmptyString => false
  | String _ s' => contains s' t
  end.

(** The alias read without regard to the case of the letters A to Z,
    the only letters whose case the store ignores: these letters are put
    in lower case, every other character stays as it is stored. *)
Definition caseless (alias : string) : string := Sql.LOWER alias.

(** The alias equals the term, case-insensitively. *)
Definition exact_match (term : string) (r : row) : bool :=
  String.eqb (caseless (alias_of r)) term.


(** The alias contains the term, case-insensitively. *)
Definition partial_match (term : string) (r : row) : bool :=
  contains (caseless (alias_of r)) term.


(** Ascending alias length, then lexical order. *)
Definition shorter_then_lexical (r1 r2 : row) : Prop :=
  String.length (alias_of r1) < String.length (alias_of r2) \/
  (String.length (alias_of r1) = String.length (alias_of r2) /\
   String.leb (alias_of r1) (alias_of r2) = true).


(** [r] is the best partial match of the table: the shortest alias
    containing the term, the lexically first among the shortest. *)
Definition best_partial (term : string) (table : list row) (r : row) : Prop :=
  In r table /\ partial_match term r = true /\
  forall r', In r' table -> partial_match term r' = true ->
             shorter_then_lexical r r'.

End Spec.

(** ** Sample runs *)

Module Sample.

(** The store of the specification's ranking scenario. *)
Definition store : list row :=
  [("eml", "me@example.com"); ("em2", "alt@example.com")].

Definition world_ok : world := World (Db store) None.
Definition world_db_down : world := World (DbBroken "database is locked") None.
Definition world_clipboard_down : world :=
  World (Db store) (Some "could not find a copy/paste mechanism").

(** The overlay toggled on from start-up. *)
Definition shown : app := exec toggle_quick_input initial.

(** The user has typed [text] and the key has not been released yet. *)
Definition typed (text : string) (s : app) : app := set_quick_entry text s.

(** "/em" typed and released: both aliases are suggested. *)
Definition suggesting : app :=
  exec (update_suggestions world_ok) (typed "/em" shown).

(** Then [Down]: the focus is on the list, row 0 selected. *)
Definition on_list : app := exec (on_key Key_Down world_ok) suggesting.

(** Then [Escape] on the list: the list is dismissed, row 0 stays
    selected in the list box. *)
Definition dismissed : app := exec (on_key Key_Escape world_ok) on_list.

(** "z" pressed and not released yet: the text is "/emz" while the
    suggestions for "/em" are still up. *)
Definition retyped : app := typed "/emz" suggesting.

(** A blank typed before the trigger character. *)
Definition leading_blank : app := typed " /em" shown.

(** A store where [_] in the term matters. *)
Definition underscore_store : list row :=
  [("ab_b", "first"); ("_bzzz", "second")].





Definition underscore_world : world := World (Db underscore_store) None.

End Sample.

(** ** The suggestion list as a whole *)

(** [max_alias_length] of [show_suggestions] for the rows it is given. *)
Definition column_width (rows : list row) : nat :=
  match rows with
  | [] => 0
  | r :: ms =>
      fold_left Nat.max (map (fun r => String.length (alias_of r)) ms)
        (String.length (alias_of r))
  end.

(** The lines [show_suggestions] puts in the list box for the rows. *)
Definition rendered (rows : list row) : list string :=
  map (display_text (column_width rows)) rows.

(** What holds of the suggestions between two events: they are at most
    ten; unless they have been emptied, the list box shows them line for
    line; and the suggestion window is on screen only with suggestions. *)
Definition consistent (s : app) : Prop :=
  List.length (current_suggestions s) <= 10 /\
  (current_suggestions s = [] \/
   lb_items (suggestion_listbox s) = rendered (current_suggestions s)) /\
  (suggestion_window_mapped s = true -> current_suggestions s <> []).

(** What can happen to the overlay: the hotkey, Tk's own bindings editing
    the entry or moving the selection of the list box, and an event that
    runs the handler a widget has bound to it. *)
Inductive action : Type :=
| Hotkey
| Edit (text : string)
| Pick (selection : list Z)
| Event (target : widget) (ev : tk_event).

Definition perform (w : world) (a : action) (s : app) : app :=
  match a with
  | Hotkey => exec toggle_quick_input s
  | Edit text => set_quick_entry text s
  | Pick selection =>
      set_suggestion_listbox
        (Listbox (lb_items (suggestion_listbox s)) selection) s
  | Event target ev => exec (binding target ev w) s
  end.

(** A run: each action meets the store and the clipboard as they are at
    that moment. *)
Fixpoint run (script : list (world * action)) (s : app) : app :=
  match script with
  | [] => s
  | (w, a) :: script' => run script' (perform w a s)
  end.

(** The bindings that commit. *)
Definition commits (target : widget) (ev : tk_event) : bool :=
  match target, ev with
  | QuickEntry, Key_Return => true
  | SuggestionListbox, (Key_Return | Double_Button_1) => true
  | _, _ => false
  end.

(** ** The management window: saving an alias *)

(** [messagebox.showwarning], [showinfo] and [showerror]. *)
Inductive dialog : Type :=
| ShowWarning (title message : string)
| ShowInfo (title message : string)
| ShowError (title message : string).

(** The widgets of the main window that [save_alias] reads and writes,
    the dialogs it has opened and the lines it has printed.
    [content_text] is the text of the [tk.Text] widget without the
    newline Tk keeps at its end. *)
Record manager : Type := Manager {
  alias_entry : string;
  content_text : string;
  tree : list row;
  dialogs : list dialog;
  printed : list string
}.

(** [INSERT INTO aliases (alias, content) VALUES (?, ?)
     ON CONFLICT(alias) DO UPDATE SET content = excluded.content, ...]:
    the row of that very alias keeps its place and takes the content; a
    new alias gets the next rowid, after the last row. *)
Fixpoint insert_or_update (alias content : string) (table : list row)
  : list row :=
  match table with
  | [] => [(alias, content)]
  | r :: table' =>
      if String.eqb (alias_of r) alias
      then (alias_of r, content) :: table'
      else r :: insert_or_update alias content table'
  end.

(** [SELECT alias, content FROM aliases ORDER BY alias] *)
Definition select_listing (table : list row) : list row :=
  Sql.order_by Sql.le_alias table.

(** [self.content_text.get("1.0", tk.END)] *)
Definition content_text_get (m : manager) : string :=
  content_text m ++ String (ascii_of_nat 10) EmptyString.

(** How the connection answers the three calls [save_alias] makes, in
    the order it makes them: the [INSERT], [conn.commit()] and the
    [SELECT] of [load_aliases()].  [Some message] is a raised
    [sqlite3.Error].  When the commit raises, SQLite has either kept the
    transaction open, and the connection still sees the row, or rolled
    it back. *)
Inductive commit_result : Type :=
| Committed
| CommitRaises (message : string) (rolled_back : bool).

Record store_calls : Type := StoreCalls {
  on_insert : option string;
  on_commit : commit_result;
  on_select : option string
}.

(** A connection that answers every call. *)
Definition working : store_calls := StoreCalls None Committed None.

(** The loop of [load_aliases()] that deletes the children of the tree. *)
Definition clear_tree (m : manager) : manager :=
  Manager (alias_entry m) (content_text m) [] (dialogs m) (printed m).

(** The loop of [load_aliases()] that inserts the fetched rows. *)
Definition fill_tree (rows : list row) (m : manager) : manager :=
  Manager (alias_entry m) (content_text m) (tree m ++ rows)
          (dialogs m) (printed m).

(** [load_aliases()]: the tree is emptied, then the query runs and, if it
    answers, its rows are inserted; the result is [Some message] when
    the query raises. *)
Definition load_aliases (answer : option string) (table : list row)
           (m : manager) : option string * manager :=
  match answer with
  | None => (None, fill_tree (select_listing table) (clear_tree m))
  | Some message => (Some message, clear_tree m)
  end.

(** [clear_inputs()] *)
Definition clear_inputs (m : manager) : manager :=
  Manager "" "" (tree m) (dialogs m) (printed m).

Definition open_dialog (d : dialog) (m : manager) : manager :=
  Manager (alias_entry m) (content_text m) (tree m)
          (dialogs m ++ [d]) (printed m).

Definition print_line (line : string) (m : manager) : manager :=
  Manager (alias_entry m) (content_text m) (tree m)
          (dialogs m) (printed m ++ [line]).

Definition is_empty (s : string) : bool :=
  match s with
  | EmptyString => true
  | String _ _ => false
  end.

(** The [except sqlite3.Error] branch of [save_alias]. *)
Definition save_failed (message : string) (m : manager) : manager :=
  open_dialog (ShowError "Error" ("Failed to save alias: " ++ message))
    (print_line ("Database error while saving: " ++ message) m).

(** [save_alias()] on a table, as the connection sees it before and
    after, and the window it leaves. *)
Definition save_alias (table : list row) (calls : store_calls) (m : manager)
  : list row * manager :=
  let alias := Py.strip (alias_entry m) in
  let content := Py.strip (content_text_get m) in
  if is_empty alias || is_empty content then
    (table,
     open_dialog
       (ShowWarning "Warning" "Both alias and content are required!") m)
  else
    let m1 :=
      print_line ("Saving alias: " ++ alias ++ " with content: " ++ content) m in
    match on_insert calls with
    | Some message => (table, save_failed message m1)
    | None =>
        let table' := insert_or_update alias content table in
        match on_commit calls with
        | CommitRaises message rolled_back =>
            (if rolled_back then table else table', save_failed message m1)
        | Committed =>
            let m2 := print_line "Alias saved successfully" m1 in
            match load_aliases (on_select calls) table' m2 with
            | (Some message, m3) => (table', save_failed message m3)
            | (None, m3) =>
                (table',
                 open_dialog (ShowInfo "Success" "Alias saved successfully!")
                   (clear_inputs m3))
            end
        end
    end.

(** The aliases of a table, in rowid order. *)
Definition aliases (table : list row) : list string := map alias_of table.

(** A step that leaves the suggestions and the lines of the list box
    alone and does not bring the suggestion window on screen. *)
Definition keeps_suggestions (s s' : app) : Prop :=
  current_suggestions s' = current_suggestions s /\
  lb_items (suggestion_listbox s') = lb_items (suggestion_listbox s) /\
  (suggestion_window_mapped s' = true -> suggestion_window_mapped s = true).

(** * Properties *)

(** ** How the handlers run *)

Lemma for_each_rows (n : nat) (matches : list row) (s : app) :
  for_each matches (fun r =>
       listbox_insert_end (display_text n r) ;;
       modify (fun s =>
         set_current_suggestions (current_suggestions s ++ [r]) s)) s
  = (Returned tt,
     set_current_suggestions (current_suggestions s ++ matches)
       (set_suggestion_listbox
          (Listbox (lb_items (suggestion_listbox s) ++ map (display_text n) matches)
                   (lb_selection (suggestion_listbox s))) s)).
Proof.
  revert s; induction matches as [|r ms IH]; intros s.
  - destruct s as [v qm sm qe [items sel] cs f o]; cbn.
    now rewrite !app_nil_r.
  - cbn [for_each]. unfold bind at 1. unfold bind at 1.
    cbn [listbox_insert_end modify]. rewrite IH.
    destruct s as [v qm sm qe [items sel] cs f o]; cbn.
    now rewrite <- !app_assoc.
Qed.

(** With at least one match, [show_suggestions] returns normally with the
    matches as the current suggestions and the suggestion window mapped. *)
Lemma show_suggestions_rows (r : row) (ms : list row) (s : app) :
  show_suggestions (r :: ms) s
  = (Returned tt,
     App (is_quick_window_visible s) (quick_window_mapped s) true
         (quick_entry s)
         (Listbox
            (map (display_text
                    (fold_left Nat.max (map (fun r => String.length (alias_of r)) ms)
                       (String.length (alias_of r))))
               (r :: ms)) [])
         (r :: ms) (focus s) (out s)).
Proof.
  unfold show_suggestions, try_except.
  unfold bind at 1. cbn [listbox_delete_all modify].
  unfold bind at 1. cbn [modify].
  unfold bind at 1. cbn [py_max Py.max_of map ret].
  unfold bind at 1. rewrite for_each_rows.
  destruct s as [v qm sm qe [items sel] cs f o]; cbn.
  reflexivity.
Qed.

Lemma hide_suggestions_run (s : app) :
  hide_suggestions s
  = (Returned tt,
     set_current_suggestions [] (set_suggestion_window_mapped false s)).
Proof. reflexivity. Qed.

Lemma hide_quick_input_run (s : app) :
  hide_quick_input s
  = (Returned tt,
     set_is_quick_window_visible false
       (set_suggestion_window_mapped false (set_quick_window_mapped false s))).
Proof. reflexivity. Qed.

Lemma show_quick_input_run (s : app) :
  show_quick_input s
  = (Returned tt,
     set_is_quick_window_visible true
       (set_focus QuickEntry
          (set_quick_window_mapped true (set_quick_entry "" s)))).
Proof. reflexivity. Qed.

Lemma toggle_quick_input_run (s : app) :
  toggle_quick_input s
  = if is_quick_window_visible s then hide_quick_input s
    else show_quick_input s.
Proof.
  unfold toggle_quick_input, try_except, bind, gets.
  destruct (is_quick_window_visible s); reflexivity.
Qed.

Lemma update_suggestions_not_query (w : world) (s : app) :
  is_query s = false ->
  update_suggestions w s = hide_suggestions s.
Proof.
  unfold is_query, query_text. intros H.
  unfold update_suggestions, try_except.
  unfold bind at 1. cbn [gets]. rewrite H. reflexivity.
Qed.

Lemma update_suggestions_db_broken (w : world) (s : app) (message : string) :
  is_query s = true ->
  db w = DbBroken message ->
  update_suggestions w s
  = (Returned tt,
     emit (PrintTraceback (Exn Sqlite3Error message))
       (emit (PrintLine ("Error updating suggestions: " ++ message)) s)).
Proof.
  unfold is_query, query_text. intros H Hdb.
  unfold update_suggestions, try_except.
  unfold bind at 1. cbn [gets]. rewrite H.
  unfold cursor_query. rewrite Hdb.
  destruct (Py.lower (Py.slice_from_1 (Py.strip (quick_entry s))));
    reflexivity.
Qed.

Lemma update_suggestions_db (w : world) (s : app) (table : list row) :
  is_query s = true ->
  db w = Db table ->
  update_suggestions w s
  = let matches := suggestion_rows (search_text_of s) table in
    let s1 := emit_all (found_matches_line (search_text_of s) matches) s in
    match matches with
    | _ :: _ => show_suggestions matches s1
    | [] => hide_suggestions s1
    end.
Proof.
  unfold is_query, search_text_of, query_text. intros H Hdb.
  unfold update_suggestions, try_except.
  unfold bind at 1. cbn [gets]. rewrite H.
  unfold cursor_query. rewrite Hdb.
  destruct (Py.lower (Py.slice_from_1 (Py.strip (quick_entry s)))) as [|c t];
    cbn [suggestion_rows found_matches_line emit_all fold_left].
  - unfold bind, ret.
    destruct (Sql.select_all table) as [|r ms].
    + reflexivity.
    + rewrite show_suggestions_rows. reflexivity.
  - unfold bind at 1. unfold ret at 1. unfold bind at 1. cbn [modify].
    destruct (Sql.select_suggestions (String c t) table) as [|r ms].
    + reflexivity.
    + rewrite show_suggestions_rows. reflexivity.
Qed.

(** The state [hide_quick_input] leaves. *)
Lemma exec_hide_quick_input (s : app) :
  exec hide_quick_input s
  = App false false false (quick_entry s) (suggestion_listbox s)
        (current_suggestions s) (focus s) (out s).
Proof. reflexivity. Qed.

Lemma process_quick_input_not_query (w : world) (s : app) :
  is_query s = false ->
  process_quick_input w s = (Returned tt, set_quick_entry "" s).
Proof.
  unfold is_query, query_text. intros H.
  unfold process_quick_input, try_except.
  unfold bind at 1. cbn [gets]. rewrite H. reflexivity.
Qed.

Lemma process_quick_input_db_broken (w : world) (s : app) (message : string) :
  is_query s = true ->
  db w = DbBroken message ->
  process_quick_input w s
  = (Returned tt,
     set_quick_entry ""
       (emit_all
          [PrintLine ("Processing input: " ++ search_text_of s);
           PrintLine ("Database error: " ++ message);
           Notification ("Database error: " ++ message)] s)).
Proof.
  unfold is_query, search_text_of, query_text. intros H Hdb.
  unfold process_quick_input, try_except.
  unfold bind at 1. cbn [gets]. rewrite H.
  unfold cursor_query. rewrite Hdb. reflexivity.
Qed.

Lemma process_quick_input_db (w : world) (s : app) (table : list row) :
  is_query s = true ->
  db w = Db table ->
  process_quick_input w s
  = (Returned tt,
     let t := search_text_of s in
     match resolve t table with
     | Some content =>
         match clipboard_error w with
         | None =>
             set_quick_entry ""
               (emit (Notification "Copied content to clipboard")
                  (exec hide_quick_input
                     (emit_all
                        [PrintLine ("Processing input: " ++ t);
                         PrintSearchResult (Some content);
                         PrintLine ("Copying content: " ++ content);
                         ClipboardCopy content;
                         PrintLine "Content copied successfully"] s)))
         | Some message =>
             set_quick_entry ""
               (emit_all
                  [PrintLine ("Processing input: " ++ t);
                   PrintSearchResult (Some content);
                   PrintLine ("Copying content: " ++ content);
                   PrintLine ("Clipboard error: " ++ message);
                   Notification ("Error copying to clipboard: " ++ message)] s)
         end
     | None =>
         set_quick_entry ""
           (emit_all
              [PrintLine ("Processing input: " ++ t);
               PrintSearchResult None;
               PrintLine ("No match found for: " ++ t);
               Notification ("No match found for: " ++ t)] s)
     end).
Proof.
  unfold is_query, search_text_of, query_text, resolve. intros H Hdb.
  unfold process_quick_input, try_except.
  unfold bind at 1. cbn [gets]. rewrite H.
  unfold cursor_query, pyperclip_copy. rewrite Hdb.
  set (t := Py.lower (Py.slice_from_1 (Py.strip (quick_entry s)))).
  destruct (Sql.select_exact t table) as [c|].
  - destruct (clipboard_error w); reflexivity.
  - destruct (Sql.select_partial t table) as [c|].
    + destruct (clipboard_error w); reflexivity.
    + reflexivity.
Qed.

Lemma use_suggestion_selected (w : world) (s : app)
      (index : Z) (rest : list Z) (alias content : string) :
  lb_selection (suggestion_listbox s) = index :: rest ->
  (0 <= index)%Z ->
  nth_error (current_suggestions s) (Z.to_nat index) = Some (alias, content) ->
  use_suggestion w s
  = (Returned tt,
     match clipboard_error w with
     | None =>
         emit (Notification ("Copied: " ++ alias))
           (exec hide_quick_input
              (emit_all
                 [PrintLine ("Using suggestion: " ++ alias
                               ++ " with content: " ++ content);
                  ClipboardCopy content] s))
     | Some message =>
         emit_all
           [PrintLine ("Using suggestion: " ++ alias
                         ++ " with content: " ++ content);
            PrintLine ("Error using suggestion: " ++ message);
            PrintTraceback (Exn PyperclipException message)] s
     end).
Proof.
  intros Hsel Hpos Hnth.
  assert (Hlt : (index <? Z.of_nat (List.length (current_suggestions s)))%Z = true).
  { apply Z.ltb_lt.
    assert (Z.to_nat index < List.length (current_suggestions s))
      by (apply nth_error_Some; congruence).
    lia. }
  apply Z.leb_le in Hpos.
  unfold use_suggestion, try_except.
  unfold bind at 1. cbn [gets]. rewrite Hsel.
  unfold bind at 1. cbn [gets]. rewrite Hpos, Hlt. cbn [andb].
  rewrite Hnth. unfold pyperclip_copy.
  destruct (clipboard_error w); reflexivity.
Qed.

Lemma use_suggestion_nothing (w : world) (s : app) :
  match lb_selection (suggestion_listbox s) with
  | [] => True
  | index :: _ =>
      ((0 <=? index) && (index <? Z.of_nat (List.length (current_suggestions s))))%Z
      = false
  end ->
  use_suggestion w s = (Returned tt, s).
Proof.
  intros H. unfold use_suggestion, try_except.
  unfold bind at 1. cbn [gets].
  destruct (lb_selection (suggestion_listbox s)) as [|index rest].
  - reflexivity.
  - unfold bind at 1. cbn [gets]. rewrite H. reflexivity.
Qed.

(** ** Strings: case folding, prefixes and substrings *)

Lemma lower_char_idem (c : ascii) :
  Sql.lower_char (Sql.lower_char c) = Sql.lower_char c.
Proof. destruct c as [[] [] [] [] [] [] [] []]; reflexivity. Qed.

Lemma lower_idem (s : string) : lowercase (Sql.LOWER s).
Proof.
  unfold lowercase. induction s as [|c s IH]; cbn; [reflexivity|].
  now rewrite lower_char_idem, IH.
Qed.



Lemma lowercase_cons (c : ascii) (s : string) :
  lowercase (String c s) -> Sql.lower_char c = c /\ lowercase s.
Proof. unfold lowercase; cbn; intros H; now inversion H as [[H1 H2]]; rewrite H1, H2. Qed.

Lemma startswith_iff (s t : string) :
  Py.startswith s t = true <-> exists v, s = t ++ v.
Proof.
  revert s; induction t as [|a t IH]; intros s; cbn.
  - split; [intros _; now exists s | reflexivity].
  - destruct s as [|b s].
    + split; [discriminate | intros [v Hv]; discriminate].
    + rewrite andb_true_iff, Ascii.eqb_eq, IH. split.
      * intros [-> [v ->]]. now exists v.
      * intros [v Hv]. inversion Hv; subst. split; [reflexivity | now exists v].
Qed.

Lemma contains_iff (s t : string) :
  Spec.contains s t = true <-> exists u v, s = u ++ t ++ v.
Proof.
  induction s as [|c s IH]; cbn [Spec.contains].
  - rewrite orb_false_r, startswith_iff. split.
    + intros [v Hv]. now exists "", v.
    + intros [u [v H]]. destruct u; [now exists v | discriminate].
  - rewrite orb_true_iff, startswith_iff, IH. split.
    + intros [[v Hv] | [u [v Hv]]].
      * now exists "", v.
      * exists (String c u), v. cbn. now rewrite Hv.
    + intros [[|d u] [v Hv]].
      * left. now exists v.
      * right. exists u, v. cbn in Hv. now inversion Hv.
Qed.

(** ** [LIKE] on a search text without wildcards *)

Lemma like_percent (s p : string) :
  Sql.LIKE s (String "%" p) = like_suffix p s.
Proof. reflexivity. Qed.

Lemma like_suffix_cons (p : string) (c : ascii) (s : string) :
  like_suffix p (String c s) = Sql.LIKE (String c s) p || like_suffix p s.
Proof. reflexivity. Qed.

Lemma like_suffix_nil (p : string) :
  like_suffix p "" = Sql.LIKE "" p.
Proof. cbn. apply orb_false_r. Qed.

Lemma like_suffix_empty (s : string) : like_suffix "" s = true.
Proof.
  induction s as [|c s IH]; [reflexivity|].
  rewrite like_suffix_cons. cbn [Sql.LIKE orb]. exact IH.
Qed.

Lemma like_prefix (t s : string) :
  wildcard_free t = true -> lowercase t -> lowercase s ->
  Sql.LIKE s (t ++ "%") = Py.startswith s t.
Proof.
  revert s; induction t as [|a t IH]; intros s Hw Ht Hs.
  - cbn [append Py.startswith]. rewrite like_percent. apply like_suffix_empty.
  - cbn [wildcard_free] in Hw.
    apply andb_true_iff in Hw as [Hw Hw3].
    apply andb_true_iff in Hw as [Hw1 Hw2].
    apply negb_true_iff in Hw1, Hw2.
    apply lowercase_cons in Ht as [Ha Ht].
    cbn [append Sql.LIKE Py.startswith]. rewrite Hw1, Hw2. cbn [orb].
    destruct s as [|b s]; [reflexivity|].
    apply lowercase_cons in Hs as [Hb Hs].
    rewrite Ha, Hb, IH by assumption. reflexivity.
Qed.

Lemma like_contains (t s : string) :
  wildcard_free t = true -> lowercase t -> lowercase s ->
  Sql.LIKE s ("%" ++ t ++ "%") = Spec.contains s t.
Proof.
  intros Hw Ht. cbn [append]. rewrite like_percent.
  induction s as [|c s IH]; intros Hs.
  - rewrite like_suffix_nil. cbn [Spec.contains].
    rewrite like_prefix, orb_false_r by assumption. reflexivity.
  - pose proof (lowercase_cons _ _ Hs) as [_ Hs'].
    rewrite like_suffix_cons. cbn [Spec.contains].
    rewrite like_prefix, IH by assumption. reflexivity.
Qed.

(** On such a text the SQL filter and the [CASE] tiers are those of the
    specification. *)
Lemma filter_is_partial_match (t : string) (r : row) :
  wildcard_free t = true -> lowercase t ->
  Sql.LIKE (Sql.LOWER (alias_of r)) ("%" ++ t ++ "%") = Spec.partial_match t r.
Proof. intros Hw Ht. apply like_contains; auto using lower_idem. Qed.


(** ** [ORDER BY] sorts *)

Lemma in_firstn {A : Type} (n : nat) (l : list A) (x : A) :
  In x (firstn n l) -> In x l.
Proof.
  intros H. rewrite <- (firstn_skipn n l). apply in_or_app. now left.
Qed.

Section OrderByFacts.
Context {A : Type} (le : A -> A -> bool).
Hypothesis le_total : forall x y, le x y = true \/ le y x = true.
Hypothesis le_trans : forall x y z, le x y = true -> le y z = true -> le x z = true.

Let R (x y : A) : Prop := le x y = true.

Lemma insert_perm (x : A) (l : list A) :
  Permutation (Sql.insert le x l) (x :: l).
Proof.
  induction l as [|y l IH]; cbn; [reflexivity|].
  destruct (le x y); [reflexivity|].
  rewrite IH. apply perm_swap.
Qed.

Lemma order_by_perm (l : list A) : Permutation (Sql.order_by le l) l.
Proof.
  induction l as [|x l IH]; cbn; [reflexivity|].
  rewrite insert_perm. now constructor.
Qed.

Lemma insert_sorted (x : A) (l : list A) :
  StronglySorted R l -> StronglySorted R (Sql.insert le x l).
Proof.
  induction 1 as [|y l Hs IH Hall]; cbn.
  - repeat constructor.
  - destruct (le x y) eqn:Hxy.
    + constructor; [now constructor|].
      constructor; [exact Hxy|].
      eapply Forall_impl; [|exact Hall].
      intros z Hz. exact (le_trans _ _ _ Hxy Hz).
    + constructor; [exact IH|].
      assert (Hyx : R y x) by (destruct (le_total x y); congruence).
      eapply Permutation_Forall; [symmetry; apply insert_perm|].
      now constructor.
Qed.

Lemma order_by_sorted (l : list A) : StronglySorted R (Sql.order_by le l).
Proof.
  induction l as [|x l IH]; cbn; [constructor | now apply insert_sorted].
Qed.

Lemma sorted_firstn (n : nat) (l : list A) :
  StronglySorted R l -> StronglySorted R (firstn n l).
Proof.
  intros H; revert n; induction H as [|x l Hs IH Hall]; intros [|n]; cbn;
    try constructor; auto.
  apply Forall_forall. intros y Hy.
  rewrite Forall_forall in Hall. apply Hall.
  eapply in_firstn; eauto.
Qed.

(** The first row of the sorted rows is below every row. *)
Lemma order_by_head (l : list A) (x : A) :
  hd_error (Sql.order_by le l) = Some x ->
  In x l /\ forall y, In y l -> le x y = true.
Proof.
  intros Hhd.
  pose proof (order_by_sorted l) as Hs.
  pose proof (order_by_perm l) as Hp.
  destruct (Sql.order_by le l) as [|x' l'] eqn:E; [discriminate|].
  inversion Hhd; subst x'. split.
  - eapply Permutation_in; [exact Hp | now left].
  - intros y Hy.
    apply Permutation_sym in Hp.
    apply (Permutation_in _ Hp) in Hy.
    apply StronglySorted_inv in Hs as [_ Hall].
    destruct Hy as [<- | Hy].
    + destruct (le_total x x); assumption.
    + rewrite Forall_forall in Hall. now apply Hall.
Qed.

Lemma order_by_nonempty (l : list A) :
  l <> [] -> exists x, hd_error (Sql.order_by le l) = Some x.
Proof.
  intros Hl. pose proof (order_by_perm l) as Hp.
  destruct (Sql.order_by le l) as [|x l'] eqn:E.
  - apply Permutation_nil in Hp. contradiction.
  - now exists x.
Qed.
End OrderByFacts.

(** ** The ordering terms are total preorders *)

Lemma string_leb_trans (a b c : string) :
  String.leb a b = true -> String.leb b c = true -> String.leb a c = true.
Proof.
  unfold String.leb. revert b c.
  induction a as [|x a IH]; intros [|y b] [|z c]; cbn [String.compare];
    try easy.
  unfold Ascii.compare.
  destruct (N.compare_spec (N_of_ascii x) (N_of_ascii y)) as [E1|L1|G1];
    destruct (N.compare_spec (N_of_ascii y) (N_of_ascii z)) as [E2|L2|G2];
    destruct (N.compare_spec (N_of_ascii x) (N_of_ascii z)) as [E3|L3|G3];
    try easy; try lia.
  apply IH.
Qed.

Lemma le_length_alias_iff (r1 r2 : row) :
  Sql.le_length_alias r1 r2 = true <-> Spec.shorter_then_lexical r1 r2.
Proof.
  unfold Sql.le_length_alias, Spec.shorter_then_lexical, Sql.LENGTH.
  destruct (Nat.ltb_spec (String.length (alias_of r1)) (String.length (alias_of r2)));
    [intuition lia|].
  destruct (Nat.ltb_spec (String.length (alias_of r2)) (String.length (alias_of r1))).
  - split; [discriminate | lia].
  - intuition lia.
Qed.

Lemma le_length_alias_total (r1 r2 : row) :
  Sql.le_length_alias r1 r2 = true \/ Sql.le_length_alias r2 r1 = true.
Proof.
  rewrite !le_length_alias_iff. unfold Spec.shorter_then_lexical.
  destruct (Nat.lt_trichotomy (String.length (alias_of r1))
              (String.length (alias_of r2))) as [H | [H | H]];
    [now left; left | | now right; left].
  destruct (String.leb_total (alias_of r1) (alias_of r2));
    [left | right]; right; split; auto.
Qed.

Lemma le_length_alias_trans (r1 r2 r3 : row) :
  Sql.le_length_alias r1 r2 = true -> Sql.le_length_alias r2 r3 = true ->
  Sql.le_length_alias r1 r3 = true.
Proof.
  rewrite !le_length_alias_iff. unfold Spec.shorter_then_lexical.
  intros [H1 | [H1 L1]] [H2 | [H2 L2]];
    [left; lia | left; lia | left; lia |].
  right. split; [lia|]. eapply string_leb_trans; eauto.
Qed.

Lemma le_tier_length_alias_iff (t : string) (r1 r2 : row) :
  Sql.le_tier_length_alias t r1 r2 = true <->
  Sql.case_tier t r1 < Sql.case_tier t r2 \/
  (Sql.case_tier t r1 = Sql.case_tier t r2 /\ Spec.shorter_then_lexical r1 r2).
Proof.
  rewrite <- le_length_alias_iff.
  unfold Sql.le_tier_length_alias, Sql.le_length_alias.
  destruct (Nat.ltb_spec (Sql.case_tier t r1) (Sql.case_tier t r2));
    [intuition lia|].
  destruct (Nat.ltb_spec (Sql.case_tier t r2) (Sql.case_tier t r1)).
  - split; [discriminate | lia].
  - intuition lia.
Qed.

Lemma le_tier_length_alias_total (t : string) (r1 r2 : row) :
  Sql.le_tier_length_alias t r1 r2 = true \/
  Sql.le_tier_length_alias t r2 r1 = true.
Proof.
  rewrite !le_tier_length_alias_iff, <- !le_length_alias_iff.
  destruct (Nat.lt_trichotomy (Sql.case_tier t r1) (Sql.case_tier t r2))
    as [H | [H | H]]; [now left; left | | now right; left].
  destruct (le_length_alias_total r1 r2);
    [left | right]; right; split; auto.
Qed.

Lemma le_tier_length_alias_trans (t : string) (r1 r2 r3 : row) :
  Sql.le_tier_length_alias t r1 r2 = true ->
  Sql.le_tier_length_alias t r2 r3 = true ->
  Sql.le_tier_length_alias t r1 r3 = true.
Proof.
  rewrite !le_tier_length_alias_iff, <- !le_length_alias_iff.
  intros [H1 | [H1 L1]] [H2 | [H2 L2]];
    [left; lia | left; lia | left; lia |].
  right. split; [lia|]. eapply le_length_alias_trans; eauto.
Qed.

(** ** Escape *)

(** C1, as stated, fails: with the focus on the suggestion list, [Escape]
    runs [hide_suggestions], which dismisses the list and leaves the
    overlay visible. *)
Lemma escape_on_list_stays_visible :
  overlay Sample.on_list = VISIBLE_WITH_SUGGESTIONS SuggestionListbox /\
  overlay (exec (on_key Key_Escape Sample.world_ok) Sample.on_list)
  = VISIBLE_NO_SUGGESTIONS.
Proof. split; vm_compute; reflexivity. Qed.

(** C1, amended: from every visible state, [Escape] on the text field
    lands in [HIDDEN]; [Escape] on the suggestion list lands in
    [VISIBLE_NO_SUGGESTIONS] with the current suggestions emptied; neither
    writes to the clipboard. *)
Theorem escape_by_focus (w : world) (s : app) :
  visible s ->
  let s' := exec (on_key Key_Escape w) s in
  clipboard_writes (out s') = clipboard_writes (out s) /\
  match focus s with
  | QuickEntry => overlay s' = HIDDEN
  | SuggestionListbox =>
      overlay s' = VISIBLE_NO_SUGGESTIONS /\ current_suggestions s' = []
  end.
Proof.
  unfold visible, overlay.
  destruct s as [v qm sm qe lb cs f o]; cbn [is_quick_window_visible].
  destruct v; [intros _ | intros H; now contradiction H].
  destruct f; cbn; auto.
Qed.

Lemma escape_by_focus_witness :
  visible Sample.suggesting /\
  overlay (exec (on_key Key_Escape Sample.world_ok) Sample.suggesting) = HIDDEN.
Proof.
  assert (H : visible Sample.suggesting) by (vm_compute; discriminate).
  split; [exact H|].
  exact (proj2 (escape_by_focus Sample.world_ok Sample.suggesting H)).
Defined.

(** ** A clipboard failure on commit *)

(** C2, as stated, fails: when [pyperclip.copy] raises, neither commit
    path reaches [hide_quick_input]; the overlay stays visible. *)
Lemma clipboard_failure_leaves_overlay_open :
  is_query Sample.suggesting = true /\
  resolve (search_text_of Sample.suggesting) Sample.store
  = Some "alt@example.com" /\
  overlay (exec (process_quick_input Sample.world_clipboard_down)
             Sample.suggesting)
  = VISIBLE_WITH_SUGGESTIONS QuickEntry /\
  overlay (exec (use_suggestion Sample.world_clipboard_down) Sample.on_list)
  = VISIBLE_WITH_SUGGESTIONS SuggestionListbox.
Proof. repeat split; vm_compute; reflexivity. Qed.

(** C2, amended: when the clipboard write fails on a commit, the handler
    returns normally, nothing reaches the clipboard and the overlay stays
    in the state it was in.  Enter on the text field logs the failure,
    notifies the user and clears the query; a commit from the list logs
    the failure. *)
Theorem clipboard_failure_on_commit (w : world) (s : app) (message : string) :
  clipboard_error w = Some message ->
  (forall table content,
      db w = Db table ->
      is_query s = true ->
      resolve (search_text_of s) table = Some content ->
      exists s',
        process_quick_input w s = (Returned tt, s') /\
        overlay s' = overlay s /\
        quick_entry s' = "" /\
        clipboard_writes (out s') = clipboard_writes (out s) /\
        out s' = (out s ++
          [PrintLine ("Processing input: " ++ search_text_of s);
           PrintSearchResult (Some content);
           PrintLine ("Copying content: " ++ content);
           PrintLine ("Clipboard error: " ++ message);
           Notification ("Error copying to clipboard: " ++ message)])%list) /\
  (forall index rest alias content,
      lb_selection (suggestion_listbox s) = index :: rest ->
      (0 <= index)%Z ->
      nth_error (current_suggestions s) (Z.to_nat index) = Some (alias, content) ->
      exists s',
        use_suggestion w s = (Returned tt, s') /\
        overlay s' = overlay s /\
        clipboard_writes (out s') = clipboard_writes (out s) /\
        In (PrintLine ("Error using suggestion: " ++ message)) (out s')).
Proof.
  intros Hclip. split.
  - intros table content Hdb Hq Hres.
    rewrite (process_quick_input_db w s table Hq Hdb).
    cbv zeta. rewrite Hres, Hclip.
    eexists. split; [reflexivity|].
    destruct s as [v qm sm qe lb cs f o]; cbn.
    repeat split.
    + unfold clipboard_writes. rewrite <- !app_assoc, flat_map_app. cbn.
      now rewrite app_nil_r.
    + now rewrite <- !app_assoc.
  - intros index rest alias content Hsel Hpos Hnth.
    rewrite (use_suggestion_selected w s index rest alias content Hsel Hpos Hnth).
    rewrite Hclip.
    eexists. split; [reflexivity|].
    destruct s as [v qm sm qe lb cs f o]; cbn.
    repeat split.
    + unfold clipboard_writes. rewrite <- !app_assoc, flat_map_app. cbn.
      now rewrite app_nil_r.
    + rewrite <- !app_assoc. apply in_or_app. right. cbn. auto.
Qed.

Lemma clipboard_failure_on_commit_witness :
  clipboard_error Sample.world_clipboard_down
  = Some "could not find a copy/paste mechanism" /\
  overlay (exec (process_quick_input Sample.world_clipboard_down)
             Sample.suggesting)
  = overlay Sample.suggesting /\
  overlay (exec (use_suggestion Sample.world_clipboard_down) Sample.on_list)
  = overlay Sample.on_list.
Proof.
  assert (Hc : clipboard_error Sample.world_clipboard_down
               = Some "could not find a copy/paste mechanism") by reflexivity.
  destruct (clipboard_failure_on_commit
              Sample.world_clipboard_down Sample.suggesting _ Hc) as [Hinput _].
  destruct (clipboard_failure_on_commit
              Sample.world_clipboard_down Sample.on_list _ Hc) as [_ Hlist].
  destruct (Hinput Sample.store "alt@example.com" eq_refl eq_refl eq_refl)
    as (s1 & Hrun1 & Hov1 & _).
  destruct (Hlist 0%Z [] "em2" "alt@example.com" eq_refl (Z.le_refl 0) eq_refl)
    as (s2 & Hrun2 & Hov2 & _).
  unfold exec. rewrite Hrun1, Hrun2. cbn [snd]. auto.
Defined.

(** ** A store failure on a keystroke *)

(** C3, as stated, fails: when the store query raises during a key
    release, the suggestions already on screen stay on screen. *)
Lemma store_failure_keeps_suggestions :
  is_query (Sample.typed "/e" Sample.suggesting) = true /\
  let s' := exec (update_suggestions Sample.world_db_down)
              (Sample.typed "/e" Sample.suggesting) in
  overlay s' = VISIBLE_WITH_SUGGESTIONS QuickEntry /\
  current_suggestions s'
  = [("em2", "alt@example.com"); ("eml", "me@example.com")].
Proof. repeat split; vm_compute; reflexivity. Qed.

(** C3, amended: when the store query of a key release raises, the
    handler returns normally, the error and its traceback are logged,
    and the overlay, the suggestion surface and the current suggestions
    are left as they were. *)
Theorem store_failure_on_keystroke (w : world) (s : app) (message : string) :
  is_query s = true ->
  db w = DbBroken message ->
  exists s',
    update_suggestions w s = (Returned tt, s') /\
    out s' = (out s ++
      [PrintLine ("Error updating suggestions: " ++ message);
       PrintTraceback (Exn Sqlite3Error message)])%list /\
    overlay s' = overlay s /\
    suggestion_window_mapped s' = suggestion_window_mapped s /\
    current_suggestions s' = current_suggestions s /\
    suggestion_listbox s' = suggestion_listbox s /\
    quick_entry s' = quick_entry s.
Proof.
  intros Hq Hdb. rewrite (update_suggestions_db_broken w s message Hq Hdb).
  eexists. split; [reflexivity|].
  destruct s as [v qm sm qe lb cs f o]; cbn.
  rewrite <- !app_assoc. repeat split.
Qed.

Lemma store_failure_on_keystroke_witness :
  is_query (Sample.typed "/e" Sample.suggesting) = true /\
  db Sample.world_db_down = DbBroken "database is locked" /\
  current_suggestions
    (exec (update_suggestions Sample.world_db_down)
       (Sample.typed "/e" Sample.suggesting))
  = current_suggestions (Sample.typed "/e" Sample.suggesting).
Proof.
  destruct (store_failure_on_keystroke Sample.world_db_down
              (Sample.typed "/e" Sample.suggesting) "database is locked"
              eq_refl eq_refl)
    as (s' & Hrun & _ & _ & _ & Hcs & _).
  unfold exec. rewrite Hrun. cbn [snd]. auto.
Defined.

(** ** Toggling off *)

(** C4, as stated, fails: [hide_quick_input] withdraws the windows and
    discards nothing; the query text and the suggestion list are still
    there in [HIDDEN]. *)
Lemma toggle_off_keeps_session :
  visible Sample.suggesting /\
  let s' := exec toggle_quick_input Sample.suggesting in
  overlay s' = HIDDEN /\
  quick_entry s' = "/em" /\
  current_suggestions s'
  = [("em2", "alt@example.com"); ("eml", "me@example.com")].
Proof.
  split; [vm_compute; discriminate|].
  repeat split; vm_compute; reflexivity.
Qed.

(** C4, amended: from every visible state a toggle lands in [HIDDEN]
    with both windows withdrawn and leaves the query text, the current
    suggestions and the list selection as they were; the following toggle
    shows the overlay in [VISIBLE_NO_SUGGESTIONS] with the query text
    cleared and the current suggestions still as they were. *)
Theorem toggle_off_then_on (s : app) :
  visible s ->
  let s1 := exec toggle_quick_input s in
  let s2 := exec toggle_quick_input s1 in
  (overlay s1 = HIDDEN /\
   quick_window_mapped s1 = false /\
   suggestion_window_mapped s1 = false /\
   quick_entry s1 = quick_entry s /\
   current_suggestions s1 = current_suggestions s /\
   suggestion_listbox s1 = suggestion_listbox s /\
   out s1 = out s) /\
  (overlay s2 = VISIBLE_NO_SUGGESTIONS /\
   quick_entry s2 = "" /\
   focus s2 = QuickEntry /\
   current_suggestions s2 = current_suggestions s /\
   suggestion_listbox s2 = suggestion_listbox s).
Proof.
  unfold visible, overlay.
  destruct s as [v qm sm qe lb cs f o]; cbn [is_quick_window_visible].
  destruct v; [intros _ | intros H; now contradiction H].
  cbn. repeat split.
Qed.

Lemma toggle_off_then_on_witness :
  visible Sample.suggesting /\
  overlay (exec toggle_quick_input Sample.suggesting) = HIDDEN /\
  quick_entry (exec toggle_quick_input Sample.suggesting) = "/em" /\
  quick_entry
    (exec toggle_quick_input (exec toggle_quick_input Sample.suggesting)) = "".
Proof.
  assert (H : visible Sample.suggesting) by (vm_compute; discriminate).
  destruct (toggle_off_then_on Sample.suggesting H)
    as [(H1 & _ & _ & H2 & _) (_ & H3 & _)].
  repeat split; assumption.
Defined.

(** ** Commit from the text field with no match *)

(** C6, as stated, fails: the commit does not touch the suggestion
    window, so suggestions that are on screen when the query resolves to
    nothing stay on screen. *)
Lemma no_match_keeps_suggestions :
  is_query Sample.retyped = true /\
  resolve (search_text_of Sample.retyped) Sample.store = None /\
  overlay (exec (process_quick_input Sample.world_ok) Sample.retyped)
  = VISIBLE_WITH_SUGGESTIONS QuickEntry.
Proof. repeat split; vm_compute; reflexivity. Qed.

(** C6, amended: when Enter on the text field finds neither an exact nor
    a partial match for a query that starts with the trigger character,
    the handler logs and notifies "No match found for: <term>", clears
    the query and writes nothing to the clipboard; visibility and the
    suggestion window are left as they were, so a visible overlay stays
    visible and an overlay in [VISIBLE_NO_SUGGESTIONS] stays there.  The
    release of the key, which runs [update_suggestions] on the cleared
    text, then leaves a visible overlay in [VISIBLE_NO_SUGGESTIONS]. *)
Theorem commit_without_match (w : world) (s : app) (table : list row) :
  db w = Db table ->
  is_query s = true ->
  resolve (search_text_of s) table = None ->
  exists s',
    process_quick_input w s = (Returned tt, s') /\
    out s' = (out s ++
      [PrintLine ("Processing input: " ++ search_text_of s);
       PrintSearchResult None;
       PrintLine ("No match found for: " ++ search_text_of s);
       Notification ("No match found for: " ++ search_text_of s)])%list /\
    quick_entry s' = "" /\
    overlay s' = overlay s /\
    clipboard_writes (out s') = clipboard_writes (out s) /\
    (visible s -> visible s') /\
    (overlay s = VISIBLE_NO_SUGGESTIONS -> overlay s' = VISIBLE_NO_SUGGESTIONS) /\
    (visible s ->
     forall w', overlay (exec (binding QuickEntry KeyRelease w') s')
                = VISIBLE_NO_SUGGESTIONS).
Proof.
  intros Hdb Hq Hres.
  rewrite (process_quick_input_db w s table Hq Hdb).
  cbv zeta. rewrite Hres.
  eexists. split; [reflexivity|].
  generalize (search_text_of s) as t; intros t.
  unfold visible, overlay.
  destruct s as [v qm sm qe lb cs f o]; cbn.
  rewrite <- !app_assoc. repeat split; auto.
  - unfold clipboard_writes. rewrite flat_map_app. cbn. now rewrite app_nil_r.
  - intros Hv w'. destruct v; [reflexivity | now contradiction Hv].
Qed.

Lemma commit_without_match_witness :
  db Sample.world_ok = Db Sample.store /\
  is_query (Sample.typed "/zz" Sample.shown) = true /\
  resolve (search_text_of (Sample.typed "/zz" Sample.shown)) Sample.store
  = None /\
  overlay (exec (process_quick_input Sample.world_ok)
             (Sample.typed "/zz" Sample.shown))
  = VISIBLE_NO_SUGGESTIONS.
Proof.
  destruct (commit_without_match Sample.world_ok
              (Sample.typed "/zz" Sample.shown) Sample.store
              eq_refl eq_refl eq_refl)
    as (s' & Hrun & _ & _ & _ & _ & _ & Hstay & _).
  unfold exec. rewrite Hrun. cbn [snd].
  repeat split. apply Hstay. reflexivity.
Defined.

(** ** Text without the trigger character *)

(** C8, as stated, fails: the handler strips the text before it looks for
    the trigger character, so a query that starts with a blank and then
    "/" is searched and its matches are shown. *)
Lemma blank_before_trigger_is_searched :
  Py.startswith (quick_entry Sample.leading_blank) "/" = false /\
  let s' := exec (update_suggestions Sample.world_ok) Sample.leading_blank in
  current_suggestions s'
  = [("em2", "alt@example.com"); ("eml", "me@example.com")] /\
  overlay s' = VISIBLE_WITH_SUGGESTIONS QuickEntry.
Proof. repeat split; vm_compute; reflexivity. Qed.

(** C8, amended: for every query that, once stripped of surrounding
    white space, does not start with "/", a key release leaves no current
    suggestions and the suggestion window withdrawn, without asking the
    store and without any output. *)
Theorem no_trigger_no_suggestions (w : world) (s : app) :
  Py.startswith (Py.strip (quick_entry s)) "/" = false ->
  exists s',
    update_suggestions w s = (Returned tt, s') /\
    current_suggestions s' = [] /\
    suggestion_window_mapped s' = false /\
    out s' = out s /\
    quick_entry s' = quick_entry s /\
    (visible s -> overlay s' = VISIBLE_NO_SUGGESTIONS).
Proof.
  intros H. rewrite (update_suggestions_not_query w s H), hide_suggestions_run.
  eexists. split; [reflexivity|].
  unfold visible, overlay.
  destruct s as [v qm sm qe lb cs f o]; cbn.
  repeat split. destruct v; [reflexivity | intros C; now contradiction C].
Qed.

Lemma no_trigger_no_suggestions_witness :
  Py.startswith (Py.strip (quick_entry (Sample.typed "em" Sample.suggesting))) "/"
  = false /\
  current_suggestions
    (exec (update_suggestions Sample.world_ok)
       (Sample.typed "em" Sample.suggesting)) = [].
Proof.
  destruct (no_trigger_no_suggestions Sample.world_ok
              (Sample.typed "em" Sample.suggesting) eq_refl)
    as (s' & Hrun & Hcs & _).
  unfold exec. rewrite Hrun. cbn [snd]. auto.
Defined.

(** ** At most ten suggestions *)

Lemma suggestion_rows_length (t : string) (table : list row) :
  List.length (suggestion_rows t table) <= 10.
Proof.
  destruct t; cbn [suggestion_rows];
    unfold Sql.select_all, Sql.select_suggestions, Sql.LIMIT;
    apply firstn_le_length.
Qed.

(** The current suggestions after a key release on a working store. *)
Lemma update_suggestions_rows (w : world) (s : app) (table : list row) :
  db w = Db table ->
  current_suggestions (exec (update_suggestions w) s)
  = if is_query s then suggestion_rows (search_text_of s) table else [].
Proof.
  intros Hdb. unfold exec. destruct (is_query s) eqn:Hq.
  - rewrite (update_suggestions_db w s table Hq Hdb). cbv zeta.
    destruct (suggestion_rows (search_text_of s) table) as [|r ms].
    + reflexivity.
    + now rewrite show_suggestions_rows.
  - now rewrite (update_suggestions_not_query w s Hq).
Qed.

(** C9: whatever the query and the rows of the store, the suggestions a
    key release produces, from the bare "/" or from a search term, are at
    most ten. *)
Theorem at_most_ten_suggestions
        (table : list row) (clip : option string) (s : app) :
  List.length
    (current_suggestions (exec (update_suggestions (World (Db table) clip)) s))
  <= 10.
Proof.
  rewrite (update_suggestions_rows (World (Db table) clip) s table eq_refl).
  destruct (is_query s); [apply suggestion_rows_length | cbn; lia].
Qed.

(** ** Commit from the list without a usable selection *)

(** C10: when the list box has no selection, or the selected index is
    not an index of [current_suggestions], [use_suggestion] returns with
    the state untouched: nothing is copied, nothing is output, the
    overlay is where it was. *)
Theorem use_suggestion_without_selection (w : world) (s : app) :
  (lb_selection (suggestion_listbox s) = [] \/
   exists index rest,
     lb_selection (suggestion_listbox s) = index :: rest /\
     ~ (0 <= index < Z.of_nat (List.length (current_suggestions s)))%Z) ->
  use_suggestion w s = (Returned tt, s) /\
  clipboard_writes (out (exec (use_suggestion w) s)) = clipboard_writes (out s) /\
  overlay (exec (use_suggestion w) s) = overlay s.
Proof.
  intros H.
  assert (Hrun : use_suggestion w s = (Returned tt, s)).
  { apply use_suggestion_nothing.
    destruct H as [-> | (index & rest & -> & Hout)]; [exact I|].
    apply not_true_is_false. intros C.
    apply andb_true_iff in C as [C1 C2].
    apply Z.leb_le in C1. apply Z.ltb_lt in C2. lia. }
  unfold exec. rewrite Hrun. auto.
Qed.

Lemma use_suggestion_without_selection_witness :
  (lb_selection (suggestion_listbox Sample.dismissed) = [0%Z] /\
   current_suggestions Sample.dismissed = []) /\
  use_suggestion Sample.world_ok Sample.dismissed
  = (Returned tt, Sample.dismissed).
Proof.
  split; [split; reflexivity|].
  refine (proj1 (use_suggestion_without_selection
                   Sample.world_ok Sample.dismissed _)).
  right. exists 0%Z, []. split; [reflexivity|].
  change (~ (0 <= 0 < 0)%Z). lia.
Defined.

(** ** The two queries of a commit, in the words of the specification *)

Lemma find_pointwise {A : Type} (f g : A -> bool) (l : list A) :
  (forall x, f x = g x) -> find f l = find g l.
Proof.
  intros H. induction l as [|x l IH]; cbn; [reflexivity|].
  now rewrite H, IH.
Qed.

Lemma eq_nocase_is_exact_match (t : string) (r : row) :
  lowercase t ->
  Sql.eq_nocase (Sql.LOWER (alias_of r)) t = Spec.exact_match t r.
Proof.
  intros Ht. unfold Sql.eq_nocase, Spec.exact_match, Spec.caseless.
  pose proof (lower_idem (alias_of r)) as Hr. unfold lowercase in Hr, Ht.
  now rewrite Hr, Ht.
Qed.

(** The exact query returns the content of the first stored row whose
    alias is the term up to case, if there is one. *)
Lemma select_exact_spec (t : string) (table : list row) :
  lowercase t ->
  match Sql.select_exact t table with
  | Some content =>
      exists r, In r table /\ Spec.exact_match t r = true /\
                content = content_of r
  | None => forall r, In r table -> Spec.exact_match t r = false
  end.
Proof.
  intros Ht. unfold Sql.select_exact.
  rewrite (find_pointwise _ (Spec.exact_match t))
    by (intros r; now apply eq_nocase_is_exact_match).
  destruct (find (Spec.exact_match t) table) as [r|] eqn:E; cbn.
  - apply find_some in E as [Hin Hm]. now exists r.
  - now apply find_none.
Qed.

(** The partial query returns the content of the best partial match, if
    some alias contains the term. *)
Lemma select_partial_spec (t : string) (table : list row) :
  wildcard_free t = true -> lowercase t ->
  match Sql.select_partial t table with
  | Some content =>
      exists r, Spec.best_partial t table r /\ content = content_of r
  | None => forall r, In r table -> Spec.partial_match t r = false
  end.
Proof.
  intros Hw Ht. unfold Sql.select_partial, Sql.LIMIT.
  rewrite (filter_ext _ (Spec.partial_match t))
    by (intros r; now apply filter_is_partial_match).
  set (L := filter (Spec.partial_match t) table).
  destruct (hd_error (Sql.order_by Sql.le_length_alias L)) as [x|] eqn:E.
  - destruct (order_by_head Sql.le_length_alias le_length_alias_total
                le_length_alias_trans L x E) as [Hin Hmin].
    apply filter_In in Hin as [Hin Hm].
    destruct (Sql.order_by Sql.le_length_alias L) as [|x' l']; [discriminate|].
    inversion E; subst x'. cbn.
    exists x. split; [|reflexivity].
    repeat split; auto.
    intros r' Hin' Hm'. apply le_length_alias_iff. apply Hmin.
    apply filter_In. now split.
  - destruct L as [|y L'] eqn:EL.
    + cbn. intros r Hin.
      destruct (Spec.partial_match t r) eqn:Hm; [|reflexivity].
      assert (In r L) by (apply filter_In; now split).
      rewrite EL in *. contradiction.
    + destruct (order_by_nonempty Sql.le_length_alias (y :: L')) as [x Hx];
        [discriminate | congruence].
Qed.

(** What a successful commit from the text field leaves. *)
Lemma process_quick_input_copied
      (w : world) (s : app) (table : list row) (content : string) :
  db w = Db table ->
  clipboard_error w = None ->
  is_query s = true ->
  resolve (search_text_of s) table = Some content ->
  let s' := exec (process_quick_input w) s in
  clipboard_writes (out s') = (clipboard_writes (out s) ++ [content])%list /\
  overlay s' = HIDDEN /\
  quick_entry s' = "".
Proof.
  intros Hdb Hclip Hq Hres. unfold exec.
  rewrite (process_quick_input_db w s table Hq Hdb).
  cbv zeta. rewrite Hres, Hclip.
  generalize (search_text_of s) as t; intros t.
  destruct s as [v qm sm qe lb cs f o]; cbn.
  repeat split.
  unfold clipboard_writes. rewrite <- !app_assoc, flat_map_app. reflexivity.
Qed.


(** ** Resolution of a commit from the text field *)




(** ** Ranking of the suggestions *)


Lemma strongly_sorted_app_l {A : Type} (R : A -> A -> Prop) (l l' : list A) :
  StronglySorted R (l ++ l') -> StronglySorted R l.
Proof.
  induction l as [|x l IH]; cbn; intros H; [constructor|].
  apply StronglySorted_inv in H as [Hs Hall].
  constructor; [auto|].
  apply Forall_app in Hall. tauto.
Qed.






(** * Further properties of the overlay *)

(** ** What a key release leaves alone *)

Lemma clipboard_writes_emit (o : output) (s : app) :
  clipboard_writes (out (emit o s))
  = (clipboard_writes (out s)
       ++ match o with ClipboardCopy c => [c] | _ => [] end)%list.
Proof.
  destruct s as [v qm sm qe lb cs f o']; cbn.
  unfold clipboard_writes. rewrite flat_map_app. cbn.
  now rewrite app_nil_r.
Qed.

Lemma found_matches_line_no_copy (t : string) (matches : list row) (s : app) :
  clipboard_writes (out (emit_all (found_matches_line t matches) s))
  = clipboard_writes (out s).
Proof.
  destruct t; cbn [found_matches_line emit_all fold_left]; [reflexivity|].
  rewrite clipboard_writes_emit. apply app_nil_r.
Qed.

(** X1: whatever the store answers, a key release changes neither the
    text of the entry, nor the visibility of the overlay, nor the focus,
    and copies nothing. *)
Theorem key_release_frame (w : world) (s : app) :
  let s' := exec (update_suggestions w) s in
  quick_entry s' = quick_entry s /\
  is_quick_window_visible s' = is_quick_window_visible s /\
  quick_window_mapped s' = quick_window_mapped s /\
  focus s' = focus s /\
  clipboard_writes (out s') = clipboard_writes (out s).
Proof.
  unfold exec. destruct (is_query s) eqn:Hq.
  - destruct (db w) as [table | message] eqn:Hdb.
    + rewrite (update_suggestions_db w s table Hq Hdb). cbv zeta.
      pose proof (found_matches_line_no_copy (search_text_of s)
                    (suggestion_rows (search_text_of s) table) s) as Hc.
      destruct (suggestion_rows (search_text_of s) table) as [|r ms].
      * rewrite hide_suggestions_run.
        destruct (search_text_of s);
          destruct s as [v qm sm qe lb cs f o]; cbn in *; auto.
      * rewrite show_suggestions_rows.
        destruct (search_text_of s);
          destruct s as [v qm sm qe lb cs f o]; cbn in *; auto.
    + rewrite (update_suggestions_db_broken w s message Hq Hdb).
      cbn [snd]. rewrite !clipboard_writes_emit, !app_nil_r.
      destruct s as [v qm sm qe lb cs f o]; cbn; auto.
  - rewrite (update_suggestions_not_query w s Hq), hide_suggestions_run.
    destruct s as [v qm sm qe lb cs f o]; cbn; auto.
Qed.

(** ** The suggestions between two events *)

Lemma keeps_consistent (s s' : app) :
  keeps_suggestions s s' -> consistent s -> consistent s'.
Proof.
  intros (Hcs & Hit & Hmap) (Hlen & Hlines & Hshown).
  unfold consistent. rewrite Hcs, Hit. auto.
Qed.

Ltac unfold_navigation :=
  unfold discard, focus_suggestions, handle_quick_entry_keys,
    handle_suggestion_keys, handle_suggestion_click,
    listbox_selection_set, listbox_selection_clear_all,
    listbox_selection_clear, bind, gets, modify, ret;
  cbn;
  repeat (match goal with
          | |- context [if ?b then _ else _] => destruct b eqn:?
          end; cbn).

Lemma use_suggestion_cases (w : world) (s : app) :
  use_suggestion w s = (Returned tt, s) \/
  exists index rest alias content,
    lb_selection (suggestion_listbox s) = index :: rest /\
    (0 <= index)%Z /\
    nth_error (current_suggestions s) (Z.to_nat index) = Some (alias, content).
Proof.
  destruct (lb_selection (suggestion_listbox s)) as [|index rest] eqn:Hsel.
  - left. apply use_suggestion_nothing. now rewrite Hsel.
  - destruct ((0 <=? index)
              && (index <? Z.of_nat (List.length (current_suggestions s))))%Z
      eqn:Hin.
    + right. apply andb_true_iff in Hin as [H0 H1].
      apply Z.leb_le in H0. apply Z.ltb_lt in H1.
      destruct (nth_error (current_suggestions s) (Z.to_nat index))
        as [[alias content]|] eqn:Hnth.
      * now exists index, rest, alias, content.
      * apply nth_error_None in Hnth. lia.
    + left. apply use_suggestion_nothing. now rewrite Hsel.
Qed.

Lemma use_suggestion_keeps (w : world) (s : app) :
  keeps_suggestions s (exec (use_suggestion w) s).
Proof.
  unfold exec, keeps_suggestions.
  destruct (use_suggestion_cases w s)
    as [-> | (index & rest & alias & content & Hsel & Hpos & Hnth)];
    [cbn; auto|].
  rewrite (use_suggestion_selected w s index rest alias content Hsel Hpos Hnth).
  destruct (clipboard_error w);
    destruct s as [v qm sm qe lb cs f o]; cbn; auto.
  repeat split. discriminate.
Qed.

Lemma process_quick_input_keeps (w : world) (s : app) :
  keeps_suggestions s (exec (process_quick_input w) s).
Proof.
  unfold exec, keeps_suggestions. destruct (is_query s) eqn:Hq.
  - destruct (db w) as [table | message] eqn:Hdb.
    + rewrite (process_quick_input_db w s table Hq Hdb). cbv zeta.
      generalize (search_text_of s) as t; intros t.
      destruct (resolve t table) as [c|];
        [destruct (clipboard_error w)|];
        destruct s as [v qm sm qe lb cs f o]; cbn; auto.
      repeat split. discriminate.
    + rewrite (process_quick_input_db_broken w s message Hq Hdb).
      generalize (search_text_of s) as t; intros t.
      destruct s as [v qm sm qe lb cs f o]; cbn; auto.
  - rewrite (process_quick_input_not_query w s Hq).
    destruct s as [v qm sm qe lb cs f o]; cbn; auto.
Qed.

Lemma toggle_quick_input_keeps (s : app) :
  keeps_suggestions s (exec toggle_quick_input s).
Proof.
  unfold exec, keeps_suggestions. rewrite toggle_quick_input_run.
  destruct (is_quick_window_visible s) eqn:Hv.
  - rewrite hide_quick_input_run.
    destruct s as [v qm sm qe lb cs f o]; cbn. repeat split. discriminate.
  - rewrite show_quick_input_run.
    destruct s as [v qm sm qe lb cs f o]; cbn. auto.
Qed.

Lemma navigation_keeps (s : app) (k : keysym) :
  keeps_suggestions s (exec (discard focus_suggestions) s) /\
  keeps_suggestions s (exec (discard (handle_quick_entry_keys k)) s) /\
  keeps_suggestions s (exec (discard (handle_suggestion_keys k)) s) /\
  keeps_suggestions s (exec handle_suggestion_click s).
Proof.
  unfold keeps_suggestions, exec.
  repeat split; revert k; intros [| |];
    destruct s as [v qm [|] qe [items [|i sel]] cs f o];
    unfold_navigation; auto.
Qed.

Lemma update_suggestions_consistent (w : world) (s : app) :
  consistent s -> consistent (exec (update_suggestions w) s).
Proof.
  intros Hc. unfold exec. destruct (is_query s) eqn:Hq.
  - destruct (db w) as [table | message] eqn:Hdb.
    + rewrite (update_suggestions_db w s table Hq Hdb). cbv zeta.
      pose proof (suggestion_rows_length (search_text_of s) table) as Hlen.
      destruct (suggestion_rows (search_text_of s) table) as [|r ms].
      * rewrite hide_suggestions_run. unfold consistent. cbn.
        repeat split; [lia | now left | discriminate].
      * rewrite show_suggestions_rows. unfold consistent. cbn [snd].
        cbn [current_suggestions suggestion_listbox lb_items
               suggestion_window_mapped].
        repeat split; [exact Hlen | now right | discriminate].
    + rewrite (update_suggestions_db_broken w s message Hq Hdb).
      eapply keeps_consistent; [|exact Hc].
      destruct s as [v qm sm qe lb cs f o]; cbn. unfold keeps_suggestions.
      cbn. auto.
  - rewrite (update_suggestions_not_query w s Hq), hide_suggestions_run.
    unfold consistent. cbn. repeat split; [lia | now left | discriminate].
Qed.

Lemma hide_suggestions_consistent (s : app) :
  consistent (exec hide_suggestions s).
Proof.
  unfold exec. rewrite hide_suggestions_run. unfold consistent. cbn.
  repeat split; [lia | now left | discriminate].
Qed.

Lemma binding_consistent (target : widget) (ev : tk_event) (w : world) (s : app) :
  consistent s -> consistent (exec (binding target ev w) s).
Proof.
  intros Hc.
  destruct (navigation_keeps s Up) as (Hfs & Hqu & Hsu & Hcl).
  destruct (navigation_keeps s Tab) as (_ & Hqt & Hst & _).
  destruct (navigation_keeps s Down) as (_ & _ & Hsd & _).
  destruct target, ev; cbn [binding];
    first [ now apply update_suggestions_consistent
          | now apply hide_suggestions_consistent
          | eapply keeps_consistent; [|exact Hc] ];
    auto using process_quick_input_keeps, use_suggestion_keeps,
      toggle_quick_input_keeps.
  all: unfold keeps_suggestions, exec; cbn; auto.
Qed.

Lemma perform_consistent (w : world) (a : action) (s : app) :
  consistent s -> consistent (perform w a s).
Proof.
  intros Hc. destruct a as [| text | selection | target ev]; cbn [perform].
  - eapply keeps_consistent; [apply toggle_quick_input_keeps | exact Hc].
  - eapply keeps_consistent; [|exact Hc].
    destruct s as [v qm sm qe lb cs f o]; unfold keeps_suggestions; cbn; auto.
  - eapply keeps_consistent; [|exact Hc].
    destruct s as [v qm sm qe lb cs f o]; unfold keeps_suggestions; cbn; auto.
  - now apply binding_consistent.
Qed.

(** X2: in every state the overlay reaches from start-up, whatever the
    hotkey, the edits, the selections and the bound events, and whatever
    the store and the clipboard do at each of them (failures included),
    there are at most ten current suggestions; unless they have been
    emptied, the list box shows exactly their lines, in their order; and
    the suggestion window is on screen only when there are suggestions. *)
Theorem consistent_run (script : list (world * action)) :
  consistent (run script initial).
Proof.
  assert (H : forall s, consistent s -> consistent (run script s)).
  { induction script as [|[w a] script IH]; intros s Hc; cbn [run].
    - exact Hc.
    - apply IH. now apply perform_consistent. }
  apply H. unfold consistent, initial. cbn.
  repeat split; [lia | now left | discriminate].
Qed.

(** ** Commit from the list *)

(** X3: when the suggestion window is on screen and a row of the list
    box is selected, a commit from the list with a working clipboard
    copies the content of the very suggestion whose line is displayed at
    that row, hides the overlay and notifies "Copied: <alias>". *)
Theorem list_commit_copies_shown_row
        (w : world) (s : app) (index : Z) (rest : list Z) :
  consistent s ->
  suggestion_window_mapped s = true ->
  clipboard_error w = None ->
  lb_selection (suggestion_listbox s) = index :: rest ->
  (0 <= index < Z.of_nat (List.length (lb_items (suggestion_listbox s))))%Z ->
  exists alias content s',
    nth_error (lb_items (suggestion_listbox s)) (Z.to_nat index)
    = Some (display_text (column_width (current_suggestions s))
              (alias, content)) /\
    nth_error (current_suggestions s) (Z.to_nat index) = Some (alias, content) /\
    use_suggestion w s = (Returned tt, s') /\
    clipboard_writes (out s')
    = (clipboard_writes (out s) ++ [content])%list /\
    overlay s' = HIDDEN /\
    In (Notification ("Copied: " ++ alias)) (out s').
Proof.
  intros (Hlen & Hlines & Hshown) Hmap Hclip Hsel [Hpos Hlt].
  destruct Hlines as [Hnil | Hlines]; [now apply Hshown in Hmap|].
  rewrite Hlines in *. unfold rendered in *. rewrite length_map in Hlt.
  destruct (nth_error (current_suggestions s) (Z.to_nat index))
    as [[alias content]|] eqn:Hnth;
    [|apply nth_error_None in Hnth; lia].
  exists alias, content.
  rewrite (use_suggestion_selected w s index rest alias content Hsel Hpos Hnth).
  rewrite Hclip. eexists.
  split; [now apply map_nth_error|].
  split; [reflexivity|].
  split; [reflexivity|].
  destruct s as [v qm sm qe lb cs f o]; cbn.
  split; [|split; [reflexivity|]].
  - unfold clipboard_writes. rewrite <- !app_assoc, flat_map_app. reflexivity.
  - apply in_or_app. right. now left.
Qed.

Lemma list_commit_copies_shown_row_witness :
  nth_error (lb_items (suggestion_listbox Sample.on_list)) 0
  = Some "em2   | alt@example.com" /\
  clipboard_writes
    (out (exec (use_suggestion Sample.world_ok) Sample.on_list))
  = ["alt@example.com"].
Proof.
  assert (Hc : consistent Sample.on_list).
  { repeat split; [vm_compute; lia | now right | discriminate]. }
  destruct (list_commit_copies_shown_row Sample.world_ok Sample.on_list
              0%Z [] Hc eq_refl eq_refl eq_refl)
    as (alias & content & s' & _ & Hnth & Hrun & Hcopy & _).
  - split; [lia | vm_compute; reflexivity].
  - split; [reflexivity|].
    unfold exec. rewrite Hrun. cbn [snd]. rewrite Hcopy.
    vm_compute in Hnth. inversion Hnth. reflexivity.
Defined.

(** ** Where the clipboard is written *)

Lemma update_suggestions_no_copy (w : world) (s : app) :
  clipboard_writes (out (exec (update_suggestions w) s))
  = clipboard_writes (out s).
Proof.
  unfold exec. destruct (is_query s) eqn:Hq.
  - destruct (db w) as [table | message] eqn:Hdb.
    + rewrite (update_suggestions_db w s table Hq Hdb). cbv zeta.
      pose proof (found_matches_line_no_copy (search_text_of s)
                    (suggestion_rows (search_text_of s) table) s) as Hc.
      destruct (suggestion_rows (search_text_of s) table) as [|r ms].
      * rewrite hide_suggestions_run. rewrite <- Hc.
        destruct (emit_all _ s); reflexivity.
      * rewrite show_suggestions_rows. now rewrite <- Hc.
    + rewrite (update_suggestions_db_broken w s message Hq Hdb).
      cbn [snd]. now rewrite !clipboard_writes_emit, !app_nil_r.
  - rewrite (update_suggestions_not_query w s Hq), hide_suggestions_run.
    destruct s; reflexivity.
Qed.

Lemma process_quick_input_copies (w : world) (s : app) :
  exists copied,
    clipboard_writes (out (exec (process_quick_input w) s))
    = (clipboard_writes (out s) ++ copied)%list /\
    List.length copied <= 1.
Proof.
  unfold exec. destruct (is_query s) eqn:Hq.
  - destruct (db w) as [table | message] eqn:Hdb.
    + rewrite (process_quick_input_db w s table Hq Hdb). cbv zeta.
      generalize (search_text_of s) as t; intros t.
      destruct (resolve t table) as [c|];
        [destruct (clipboard_error w); [exists [] | exists [c]] | exists []];
        destruct s as [v qm sm qe lb cs f o]; cbn;
        unfold clipboard_writes; rewrite <- ?app_assoc, flat_map_app; cbn;
        (split; [reflexivity | lia]).
    + rewrite (process_quick_input_db_broken w s message Hq Hdb).
      exists []. generalize (search_text_of s) as t; intros t.
      destruct s as [v qm sm qe lb cs f o]; cbn.
      unfold clipboard_writes; rewrite <- ?app_assoc, flat_map_app; cbn.
      split; [reflexivity | lia].
  - rewrite (process_quick_input_not_query w s Hq). exists [].
    destruct s as [v qm sm qe lb cs f o]; cbn. rewrite app_nil_r.
    split; [reflexivity | lia].
Qed.

Lemma use_suggestion_copies (w : world) (s : app) :
  exists copied,
    clipboard_writes (out (exec (use_suggestion w) s))
    = (clipboard_writes (out s) ++ copied)%list /\
    List.length copied <= 1.
Proof.
  unfold exec.
  destruct (use_suggestion_cases w s)
    as [-> | (index & rest & alias & content & Hsel & Hpos & Hnth)].
  - exists []. cbn. rewrite app_nil_r. split; [reflexivity | lia].
  - rewrite (use_suggestion_selected w s index rest alias content Hsel Hpos Hnth).
    destruct (clipboard_error w); [exists [] | exists [content]];
      destruct s as [v qm sm qe lb cs f o]; cbn;
      unfold clipboard_writes; rewrite <- ?app_assoc, flat_map_app; cbn;
      (split; [reflexivity | lia]).
Qed.

Lemma navigation_no_output (s : app) (k : keysym) :
  out (exec (discard focus_suggestions) s) = out s /\
  out (exec (discard (handle_quick_entry_keys k)) s) = out s /\
  out (exec (discard (handle_suggestion_keys k)) s) = out s /\
  out (exec handle_suggestion_click s) = out s.
Proof.
  unfold exec.
  repeat split; revert k; intros [| |];
    destruct s as [v qm [|] qe [items [|i sel]] cs f o];
    unfold_navigation; auto.
Qed.

(** X4: an event writes to the clipboard at most once, and only the
    three bindings that commit (Enter on the entry, Enter and double
    click on the list) ever do; no key release, navigation key, click,
    Escape or toggle copies anything. *)
Theorem clipboard_only_on_commit
        (target : widget) (ev : tk_event) (w : world) (s : app) :
  exists copied,
    clipboard_writes (out (exec (binding target ev w) s))
    = (clipboard_writes (out s) ++ copied)%list /\
    List.length copied <= 1 /\
    (commits target ev = false -> copied = []) /\
    clipboard_writes (out (exec toggle_quick_input s)) = clipboard_writes (out s).
Proof.
  assert (Htoggle : out (exec toggle_quick_input s) = out s).
  { unfold exec. rewrite toggle_quick_input_run.
    destruct s as [[|] qm sm qe lb cs f o]; reflexivity. }
  destruct (navigation_no_output s Up) as (Hfs & Hqu & Hsu & Hcl).
  destruct (navigation_no_output s Tab) as (_ & Hqt & Hst & _).
  destruct (navigation_no_output s Down) as (_ & _ & Hsd & _).
  destruct (process_quick_input_copies w s) as (c1 & Hc1 & Hl1).
  destruct (use_suggestion_copies w s) as (c2 & Hc2 & Hl2).
  pose proof (update_suggestions_no_copy w s) as Hup.
  assert (Hhide : out (exec hide_suggestions s) = out s)
    by (destruct s; reflexivity).
  destruct target, ev; cbn [binding commits];
    try (exists c1; rewrite Hc1, Htoggle; repeat split; auto; discriminate);
    try (exists c2; rewrite Hc2, Htoggle; repeat split; auto; discriminate);
    exists []; rewrite app_nil_r, Htoggle; repeat split; auto; congruence.
Qed.

(** ** The bare trigger character *)

Lemma le_alias_total (r1 r2 : row) :
  Sql.le_alias r1 r2 = true \/ Sql.le_alias r2 r1 = true.
Proof. apply String.leb_total. Qed.

Lemma le_alias_trans (r1 r2 r3 : row) :
  Sql.le_alias r1 r2 = true -> Sql.le_alias r2 r3 = true ->
  Sql.le_alias r1 r3 = true.
Proof. apply string_leb_trans. Qed.

(** X5: when the stripped text is "/" alone, a key release on a working
    store suggests the stored rows in ascending lexical order of their
    alias, cut after the tenth: the suggestions followed by the rows left
    out are the whole table, sorted. *)
Theorem bare_trigger_lists_aliases (w : world) (s : app) (table : list row) :
  db w = Db table ->
  query_text s = "/" ->
  let l := current_suggestions (exec (update_suggestions w) s) in
  let earlier (r1 r2 : row) := String.leb (alias_of r1) (alias_of r2) = true in
  StronglySorted earlier l /\
  List.length l = Nat.min 10 (List.length table) /\
  exists rest,
    Permutation (l ++ rest) table /\ StronglySorted earlier (l ++ rest).
Proof.
  intros Hdb Hq l earlier.
  assert (Hl : l = firstn 10 (Sql.order_by Sql.le_alias table)).
  { subst l. rewrite (update_suggestions_rows w s table Hdb).
    unfold is_query, search_text_of. rewrite Hq. reflexivity. }
  pose proof (order_by_sorted Sql.le_alias le_alias_total le_alias_trans table)
    as Hsorted.
  pose proof (order_by_perm Sql.le_alias table) as Hperm.
  assert (Happ : (l ++ skipn 10 (Sql.order_by Sql.le_alias table))%list
                 = Sql.order_by Sql.le_alias table)
    by (rewrite Hl; apply firstn_skipn).
  split; [|split].
  - apply (strongly_sorted_app_l _ l (skipn 10 (Sql.order_by Sql.le_alias table))).
    rewrite Happ. exact Hsorted.
  - rewrite Hl, length_firstn. now rewrite (Permutation_length Hperm).
  - exists (skipn 10 (Sql.order_by Sql.le_alias table)).
    rewrite Happ. split; [exact Hperm | exact Hsorted].
Qed.

Lemma bare_trigger_lists_aliases_witness :
  (db Sample.world_ok = Db Sample.store /\
   query_text (Sample.typed " / " Sample.shown) = "/") /\
  List.length
    (current_suggestions
       (exec (update_suggestions Sample.world_ok)
          (Sample.typed " / " Sample.shown)))
  = 2.
Proof.
  split; [split; reflexivity|].
  exact (proj1 (proj2 (bare_trigger_lists_aliases Sample.world_ok
                         (Sample.typed " / " Sample.shown) Sample.store
                         eq_refl eq_refl))).
Defined.

Lemma contains_empty (s : string) : Spec.contains s "" = true.
Proof. destruct s; reflexivity. Qed.

(** X6: Enter on the stripped text "/" alone, with a working store and
    clipboard and a store that is not empty and has no empty alias, finds
    no exact match, takes every alias as a partial match and copies the
    content of the shortest alias of the whole store, the lexically
    first among the shortest; the overlay is hidden. *)
Theorem bare_trigger_commit_copies_shortest
        (w : world) (s : app) (table : list row) :
  db w = Db table ->
  clipboard_error w = None ->
  query_text s = "/" ->
  table <> [] ->
  (forall r, In r table -> alias_of r <> "") ->
  let s' := exec (process_quick_input w) s in
  exists r,
    In r table /\
    (forall r', In r' table -> Spec.shorter_then_lexical r r') /\
    clipboard_writes (out s')
    = (clipboard_writes (out s) ++ [content_of r])%list /\
    overlay s' = HIDDEN.
Proof.
  intros Hdb Hclip Hq Hne Halias s'.
  assert (Hquery : is_query s = true) by (unfold is_query; now rewrite Hq).
  assert (Hterm : search_text_of s = "")
    by (unfold search_text_of; now rewrite Hq).
  assert (Hlow : lowercase "") by reflexivity.
  pose proof (select_exact_spec "" table Hlow) as Hex.
  pose proof (select_partial_spec "" table eq_refl Hlow) as Hpa.
  destruct (Sql.select_exact "" table) as [c|] eqn:E.
  { destruct Hex as (r & Hin & Hm & _).
    unfold Spec.exact_match in Hm. apply String.eqb_eq in Hm.
    exfalso. apply (Halias r Hin).
    destruct (alias_of r); [reflexivity | discriminate]. }
  destruct (Sql.select_partial "" table) as [c|] eqn:E2.
  - destruct Hpa as (r & (Hin & _ & Hbest) & ->).
    exists r. split; [exact Hin|]. split.
    + intros r' Hin'. apply Hbest; [exact Hin'|]. apply contains_empty.
    + assert (Hres : resolve (search_text_of s) table = Some (content_of r))
        by (unfold resolve; now rewrite Hterm, E, E2).
      destruct (process_quick_input_copied w s table (content_of r)
                  Hdb Hclip Hquery Hres) as (Hcopy & Hov & _).
      split; assumption.
  - destruct table as [|r0 table']; [contradiction|].
    specialize (Hpa r0 (or_introl eq_refl)).
    unfold Spec.partial_match in Hpa. now rewrite contains_empty in Hpa.
Qed.

Lemma bare_trigger_commit_copies_shortest_witness :
  (db Sample.world_ok = Db Sample.store /\
   clipboard_error Sample.world_ok = None /\
   query_text (Sample.typed "/" Sample.shown) = "/" /\
   Sample.store <> []) /\
  exists r,
    In r Sample.store /\
    clipboard_writes
      (out (exec (process_quick_input Sample.world_ok)
              (Sample.typed "/" Sample.shown)))
    = [content_of r].
Proof.
  assert (Hne : Sample.store <> []) by discriminate.
  split; [repeat split; exact Hne|].
  destruct (bare_trigger_commit_copies_shortest Sample.world_ok
              (Sample.typed "/" Sample.shown) Sample.store
              eq_refl eq_refl eq_refl Hne) as (r & Hin & _ & Hcopy & _).
  - intros r [<- | [<- | []]]; discriminate.
  - exists r. split; [exact Hin | exact Hcopy].
Defined.

(** ** A stored alias typed in full *)

Lemma like_suffix_here (p s : string) :
  Sql.LIKE s p = true -> like_suffix p s = true.
Proof.
  intros H. destruct s; [rewrite like_suffix_nil | rewrite like_suffix_cons];
    now rewrite H.
Qed.

(** A text matches itself as a pattern, wildcards or not. *)
Lemma like_self (s : string) : Sql.LIKE s (s ++ "%") = true.
Proof.
  induction s as [|c s IH]; [reflexivity|].
  cbn [append Sql.LIKE].
  destruct (Ascii.eqb c "%").
  - change (like_suffix (s ++ "%") (String c s) = true).
    rewrite like_suffix_cons. rewrite (like_suffix_here _ _ IH).
    apply orb_true_r.
  - rewrite Ascii.eqb_refl, IH, orb_true_r. reflexivity.
Qed.

Lemma like_self_anywhere (s : string) : Sql.LIKE s ("%" ++ s ++ "%") = true.
Proof.
  cbn [append]. rewrite like_percent. apply like_suffix_here, like_self.
Qed.

Lemma lower_nonempty (s : string) : s <> "" -> Py.lower s <> "".
Proof. destruct s; [congruence | discriminate]. Qed.

(** X7: when the text after "/" is a stored alias typed in any letter
    case, and that alias holds no capital letter outside A to Z (Python's
    lower case of it is then what SQLite's [LOWER] makes of it), a key
    release on a working store puts a row whose alias is that alias up
    to the case of the letters A to Z at the head of the suggestions,
    whether or not the alias contains [%] or [_]. *)
Theorem stored_alias_ranks_first
        (w : world) (s : app) (table : list row) (r0 : row) :
  db w = Db table ->
  In r0 table ->
  alias_of r0 <> "" ->
  Py.lower (alias_of r0) = Sql.LOWER (alias_of r0) ->
  is_query s = true ->
  search_text_of s = Py.lower (alias_of r0) ->
  exists r rest,
    current_suggestions (exec (update_suggestions w) s) = r :: rest /\
    In r table /\
    Sql.LOWER (alias_of r) = Sql.LOWER (alias_of r0).
Proof.
  intros Hdb Hin Hne Hfold Hq Hterm.
  rewrite (update_suggestions_rows w s table Hdb), Hq, Hterm, Hfold.
  set (t := Sql.LOWER (alias_of r0)).
  assert (Ht : t <> "")
    by (subst t; destruct (alias_of r0); [congruence | discriminate]).
  assert (Hrows : suggestion_rows t table = Sql.select_suggestions t table)
    by (destruct t; [congruence | reflexivity]).
  rewrite Hrows. unfold Sql.select_suggestions, Sql.LIMIT.
  set (matching := filter (fun r => Sql.LIKE (Sql.LOWER (alias_of r))
                                      ("%" ++ t ++ "%")) table).
  assert (Hin0 : In r0 matching).
  { apply filter_In. split; [exact Hin|]. apply like_self_anywhere. }
  destruct (order_by_nonempty (Sql.le_tier_length_alias t) matching)
    as [x Hx]; [intros E; now rewrite E in Hin0|].
  destruct (order_by_head (Sql.le_tier_length_alias t)
              (le_tier_length_alias_total t) (le_tier_length_alias_trans t)
              matching x Hx) as [Hinx Hmin].
  destruct (Sql.order_by (Sql.le_tier_length_alias t) matching)
    as [|x' sorted]; [discriminate|].
  inversion Hx; subst x'.
  exists x, (firstn 9 sorted). split; [reflexivity|].
  apply filter_In in Hinx as [Hinx _]. split; [exact Hinx|].
  specialize (Hmin r0 Hin0). apply le_tier_length_alias_iff in Hmin.
  assert (H0 : Sql.case_tier t r0 = 0).
  { unfold Sql.case_tier. fold t. now rewrite String.eqb_refl. }
  assert (Hx0 : Sql.case_tier t x = 0) by lia.
  unfold Sql.case_tier in Hx0.
  destruct (String.eqb_spec (Sql.LOWER (alias_of x)) t) as [E | _];
    [exact E|].
  destruct (Sql.LIKE (Sql.LOWER (alias_of x)) (t ++ "%")); discriminate.
Qed.

Lemma stored_alias_ranks_first_witness :
  (db Sample.underscore_world = Db Sample.underscore_store /\
   In ("ab_b", "first") Sample.underscore_store /\
   alias_of ("ab_b", "first") <> "" /\
   Py.lower (alias_of ("ab_b", "first")) = Sql.LOWER (alias_of ("ab_b", "first")) /\
   is_query (Sample.typed "/AB_B" Sample.shown) = true /\
   search_text_of (Sample.typed "/AB_B" Sample.shown)
   = Py.lower (alias_of ("ab_b", "first"))) /\
  exists r rest,
    current_suggestions
      (exec (update_suggestions Sample.underscore_world)
         (Sample.typed "/AB_B" Sample.shown)) = r :: rest /\
    Sql.LOWER (alias_of r) = "ab_b".
Proof.
  assert (Hin : In ("ab_b", "first") Sample.underscore_store) by now left.
  assert (Hne : alias_of ("ab_b", "first") <> "") by discriminate.
  split; [repeat split; assumption|].
  destruct (stored_alias_ranks_first Sample.underscore_world
              (Sample.typed "/AB_B" Sample.shown) Sample.underscore_store
              ("ab_b", "first") eq_refl Hin Hne eq_refl eq_refl eq_refl)
    as (r & rest & Hrun & _ & Hr).
  exists r, rest. split; [exact Hrun | exact Hr].
Defined.

(** ** Commits that copy nothing *)

(** X8: when the store raises during Enter on the text field, the
    handler returns normally, logs and notifies "Database error:
    <message>", clears the query and copies nothing; the overlay stays in
    the state it was in. *)
Theorem commit_store_failure (w : world) (s : app) (message : string) :
  is_query s = true ->
  db w = DbBroken message ->
  exists s',
    process_quick_input w s = (Returned tt, s') /\
    out s' = (out s ++
      [PrintLine ("Processing input: " ++ search_text_of s);
       PrintLine ("Database error: " ++ message);
       Notification ("Database error: " ++ message)])%list /\
    clipboard_writes (out s') = clipboard_writes (out s) /\
    quick_entry s' = "" /\
    overlay s' = overlay s /\
    current_suggestions s' = current_suggestions s /\
    suggestion_listbox s' = suggestion_listbox s.
Proof.
  intros Hq Hdb. rewrite (process_quick_input_db_broken w s message Hq Hdb).
  eexists. split; [reflexivity|].
  generalize (search_text_of s) as t; intros t.
  destruct s as [v qm sm qe lb cs f o]; cbn.
  rewrite <- !app_assoc. repeat split.
  unfold clipboard_writes. rewrite flat_map_app. cbn. apply app_nil_r.
Qed.

Lemma commit_store_failure_witness :
  (is_query Sample.suggesting = true /\
   db Sample.world_db_down = DbBroken "database is locked") /\
  overlay (exec (process_quick_input Sample.world_db_down) Sample.suggesting)
  = overlay Sample.suggesting /\
  quick_entry (exec (process_quick_input Sample.world_db_down) Sample.suggesting)
  = "".
Proof.
  split; [split; reflexivity|].
  destruct (commit_store_failure Sample.world_db_down Sample.suggesting
              "database is locked" eq_refl eq_refl)
    as (s' & Hrun & _ & _ & Hentry & Hov & _).
  unfold exec. rewrite Hrun. cbn [snd]. split; assumption.
Defined.

(** X9: Enter on a text that, once stripped, does not start with "/"
    clears the text and does nothing else: the store is not asked (a
    store that would raise goes unnoticed), nothing is copied, logged or
    notified, and the overlay stays as it is. *)
Theorem commit_plain_text (w : world) (s : app) :
  Py.startswith (Py.strip (quick_entry s)) "/" = false ->
  process_quick_input w s = (Returned tt, set_quick_entry "" s) /\
  out (set_quick_entry "" s) = out s /\
  overlay (set_quick_entry "" s) = overlay s.
Proof.
  intros H. rewrite (process_quick_input_not_query w s H).
  destruct s as [v qm sm qe lb cs f o]; cbn. auto.
Qed.

Lemma commit_plain_text_witness :
  Py.startswith (Py.strip (quick_entry (Sample.typed "em" Sample.shown))) "/"
  = false /\
  process_quick_input Sample.world_db_down (Sample.typed "em" Sample.shown)
  = (Returned tt, Sample.shown).
Proof.
  split; [reflexivity|].
  exact (proj1 (commit_plain_text Sample.world_db_down
                  (Sample.typed "em" Sample.shown) eq_refl)).
Defined.

(** ** Moving through the list *)

Lemma selected_row (s : app) (i : Z) :
  lb_selection (suggestion_listbox s) = [i] ->
  set_suggestion_listbox (Listbox (lb_items (suggestion_listbox s)) [i]) s = s.
Proof. destruct s as [v qm sm qe [items sel] cs f o]; cbn; now intros ->. Qed.

Lemma down_step (s : app) (k : keysym) (i : Z) :
  k <> Up ->
  lb_selection (suggestion_listbox s) = [i] ->
  (0 <= i < Z.of_nat (List.length (lb_items (suggestion_listbox s))))%Z ->
  exec (handle_suggestion_keys k) s
  = set_suggestion_listbox
      (Listbox (lb_items (suggestion_listbox s))
         [Z.min (i + 1) (Z.of_nat (List.length (lb_items (suggestion_listbox s))) - 1)])
      s.
Proof.
  intros Hk Hsel Hi.
  destruct s as [v qm sm qe [items sel] cs f o]; cbn in *; subst sel.
  set (size := Z.of_nat (List.length items)) in *.
  unfold exec, handle_suggestion_keys, listbox_selection_set,
    listbox_selection_clear_all, bind, gets, modify, ret; cbn.
  fold size.
  destruct k; [congruence | |];
    (destruct (Z.ltb_spec i (size - 1)); cbn;
     [ fold size;
       replace ((0 <=? i + 1) && (i + 1 <? size))%Z with true
         by (symmetry; apply andb_true_iff; split;
             [apply Z.leb_le | apply Z.ltb_lt]; lia);
       cbn; now rewrite Z.min_l by lia
     | now rewrite Z.min_r by lia; replace (size - 1)%Z with i by lia ]).
Qed.

(** X10: with one row of the list box selected, pressing Down (or Tab)
    [m] times moves the selection [m] rows down and stops at the last
    row; nothing else changes, and no press selects a row that does not
    exist. *)
Theorem down_stops_at_last_row (s : app) (k : keysym) (i : Z) (m : nat) :
  k <> Up ->
  lb_selection (suggestion_listbox s) = [i] ->
  (0 <= i < Z.of_nat (List.length (lb_items (suggestion_listbox s))))%Z ->
  Nat.iter m (exec (handle_suggestion_keys k)) s
  = set_suggestion_listbox
      (Listbox (lb_items (suggestion_listbox s))
         [Z.min (i + Z.of_nat m)
            (Z.of_nat (List.length (lb_items (suggestion_listbox s))) - 1)])
      s.
Proof.
  intros Hk Hsel Hi. induction m as [|m IH].
  - cbn [Nat.iter nat_rect]. rewrite Z.min_l by lia.
    replace (i + Z.of_nat 0)%Z with i by lia. symmetry. now apply selected_row.
  - rewrite Nat.iter_succ, IH.
    set (size := Z.of_nat (List.length (lb_items (suggestion_listbox s)))) in *.
    set (j := Z.min (i + Z.of_nat m) (size - 1)).
    rewrite (down_step _ k j Hk).
    + destruct s as [v qm sm qe [items sel] cs f o]; cbn in *.
      fold size. unfold set_suggestion_listbox; cbn.
      do 3 f_equal. subst j. lia.
    + destruct s as [v qm sm qe [items sel] cs f o]; reflexivity.
    + destruct s as [v qm sm qe [items sel] cs f o]; cbn in *.
      fold size. subst j. lia.
Qed.

Lemma down_stops_at_last_row_witness :
  (Down <> Up /\
   lb_selection (suggestion_listbox Sample.on_list) = [0%Z]) /\
  lb_selection
    (suggestion_listbox
       (Nat.iter 5 (exec (handle_suggestion_keys Down)) Sample.on_list))
  = [1%Z].
Proof.
  assert (Hk : Down <> Up) by discriminate.
  split; [split; [exact Hk | reflexivity]|].
  rewrite (down_stops_at_last_row Sample.on_list Down 0 5 Hk eq_refl).
  - reflexivity.
  - split; [lia | vm_compute; reflexivity].
Defined.

Lemma up_step (s : app) (i : Z) :
  lb_selection (suggestion_listbox s) = [i] ->
  (0 < i)%Z ->
  (i - 1 < Z.of_nat (List.length (lb_items (suggestion_listbox s))))%Z ->
  exec (handle_suggestion_keys Up) s
  = set_suggestion_listbox
      (Listbox (lb_items (suggestion_listbox s)) [(i - 1)%Z]) s.
Proof.
  intros Hsel Hi Hlt.
  destruct s as [v qm sm qe [items sel] cs f o]; cbn in *; subst sel.
  unfold exec, handle_suggestion_keys, listbox_selection_set,
    listbox_selection_clear_all, bind, gets, modify, ret; cbn.
  replace (i =? 0)%Z with false by (symmetry; apply Z.eqb_neq; lia).
  cbn.
  replace ((0 <=? i - 1) && (i - 1 <? Z.of_nat (List.length items)))%Z
    with true
    by (symmetry; apply andb_true_iff; split;
        [apply Z.leb_le | apply Z.ltb_lt]; lia).
  reflexivity.
Qed.

Lemma up_at_first_row (s : app) :
  lb_selection (suggestion_listbox s) = [0%Z] ->
  exec (handle_suggestion_keys Up) s
  = set_focus QuickEntry
      (set_suggestion_listbox
         (Listbox (lb_items (suggestion_listbox s)) []) s).
Proof.
  destruct s as [v qm sm qe [items sel] cs f o]; cbn. now intros ->.
Qed.

(** X11: with row [i] of the list box selected, pressing Up [i] times
    brings the selection to the first row, and one more Up clears the
    selection and gives the focus back to the entry; the suggestions and
    the text are untouched. *)
Theorem up_returns_to_entry (s : app) (n : nat) :
  lb_selection (suggestion_listbox s) = [Z.of_nat n] ->
  n < List.length (lb_items (suggestion_listbox s)) ->
  Nat.iter n (exec (handle_suggestion_keys Up)) s
  = set_suggestion_listbox
      (Listbox (lb_items (suggestion_listbox s)) [0%Z]) s /\
  Nat.iter (S n) (exec (handle_suggestion_keys Up)) s
  = set_focus QuickEntry
      (set_suggestion_listbox
         (Listbox (lb_items (suggestion_listbox s)) []) s).
Proof.
  intros Hsel Hn.
  assert (Hwalk : Nat.iter n (exec (handle_suggestion_keys Up)) s
                  = set_suggestion_listbox
                      (Listbox (lb_items (suggestion_listbox s)) [0%Z]) s).
  { revert s Hsel Hn. induction n as [|n IH]; intros s Hsel Hn.
    - cbn [Nat.iter nat_rect]. symmetry. now apply selected_row.
    - rewrite Nat.iter_succ_r, (up_step s (Z.of_nat (S n)) Hsel) by lia.
      replace (Z.of_nat (S n) - 1)%Z with (Z.of_nat n) by lia.
      rewrite IH.
      + destruct s as [v qm sm qe [items sel] cs f o]; reflexivity.
      + destruct s as [v qm sm qe [items sel] cs f o]; reflexivity.
      + destruct s as [v qm sm qe [items sel] cs f o]; cbn in *. lia. }
  split; [exact Hwalk|].
  rewrite Nat.iter_succ, Hwalk, up_at_first_row.
  - destruct s as [v qm sm qe [items sel] cs f o]; reflexivity.
  - destruct s as [v qm sm qe [items sel] cs f o]; reflexivity.
Qed.

Lemma up_returns_to_entry_witness :
  (lb_selection
     (suggestion_listbox (exec (handle_suggestion_keys Down) Sample.on_list))
   = [Z.of_nat 1] /\
   1 < List.length
         (lb_items
            (suggestion_listbox
               (exec (handle_suggestion_keys Down) Sample.on_list)))) /\
  focus
    (Nat.iter 2 (exec (handle_suggestion_keys Up))
       (exec (handle_suggestion_keys Down) Sample.on_list))
  = QuickEntry.
Proof.
  assert (Hlen : 1 < List.length
                       (lb_items
                          (suggestion_listbox
                             (exec (handle_suggestion_keys Down) Sample.on_list))))
    by (vm_compute; lia).
  split; [split; [reflexivity | exact Hlen]|].
  rewrite (proj2 (up_returns_to_entry
                    (exec (handle_suggestion_keys Down) Sample.on_list) 1
                    eq_refl Hlen)).
  reflexivity.
Defined.

(** X12: the navigation keys of the entry.  While the suggestion window
    is not on screen, Up, Down and Tab change nothing.  While it is, Tab
    gives the focus to the list with exactly the first row selected (when
    the list box has a row), Down gives the focus to the list with the
    first row added to the selection, and Up changes nothing. *)
Theorem entry_navigation_keys (w : world) (s : app) :
  (suggestion_window_mapped s = false ->
   exec (binding QuickEntry Key_Up w) s = s /\
   exec (binding QuickEntry Key_Down w) s = s /\
   exec (binding QuickEntry Key_Tab w) s = s) /\
  (suggestion_window_mapped s = true ->
   lb_items (suggestion_listbox s) <> [] ->
   exec (binding QuickEntry Key_Tab w) s
   = set_focus SuggestionListbox
       (set_suggestion_listbox
          (Listbox (lb_items (suggestion_listbox s)) [0%Z]) s) /\
   exec (binding QuickEntry Key_Down w) s
   = set_focus SuggestionListbox
       (set_suggestion_listbox
          (Listbox (lb_items (suggestion_listbox s))
             (insert_index 0 (lb_selection (suggestion_listbox s)))) s) /\
   exec (binding QuickEntry Key_Up w) s = s).
Proof.
  destruct s as [v qm sm qe [items sel] cs f o]; cbn [suggestion_window_mapped
    suggestion_listbox lb_items lb_selection].
  split.
  - intros ->. repeat split.
  - intros -> Hitems. destruct items as [|x items]; [congruence|].
    repeat split.
Qed.

Lemma entry_navigation_keys_witness :
  (suggestion_window_mapped Sample.suggesting = true /\
   lb_items (suggestion_listbox Sample.suggesting) <> []) /\
  lb_selection
    (suggestion_listbox
       (exec (binding QuickEntry Key_Tab Sample.world_ok) Sample.suggesting))
  = [0%Z].
Proof.
  assert (Hne : lb_items (suggestion_listbox Sample.suggesting) <> [])
    by discriminate.
  split; [split; [reflexivity | exact Hne]|].
  rewrite (proj1 (proj2 (entry_navigation_keys Sample.world_ok Sample.suggesting)
                    eq_refl Hne)).
  reflexivity.
Defined.

(** ** The lines of the list box *)

Lemma string_append_assoc (a b c : string) : (a ++ b) ++ c = a ++ b ++ c.
Proof. induction a as [|x a IH]; cbn; [reflexivity | now rewrite IH]. Qed.

Lemma string_length_append (a b : string) :
  String.length (a ++ b) = String.length a + String.length b.
Proof. induction a as [|x a IH]; cbn; [reflexivity | now rewrite IH]. Qed.

Lemma spaces_length (n : nat) : String.length (Py.spaces n) = n.
Proof. induction n as [|n IH]; cbn; [reflexivity | now rewrite IH]. Qed.

Lemma slice_to_length (n : nat) (s : string) :
  String.length (Py.slice_to n s) <= n.
Proof.
  revert s; induction n as [|n IH]; intros [|c s]; cbn; try lia.
  specialize (IH s). lia.
Qed.

Lemma slice_to_all (n : nat) (s : string) :
  String.length s <= n -> Py.slice_to n s = s.
Proof.
  revert s; induction n as [|n IH]; intros [|c s]; cbn; intros H;
    try reflexivity; try lia.
  rewrite IH by lia. reflexivity.
Qed.

Lemma fold_left_max_ge (l : list nat) (init : nat) :
  init <= fold_left Nat.max l init /\
  forall x, In x l -> x <= fold_left Nat.max l init.
Proof.
  revert init; induction l as [|y l IH]; intros init; cbn.
  - split; [lia | contradiction].
  - destruct (IH (Nat.max init y)) as [H1 H2]. split; [lia|].
    intros x [<- | Hx]; [lia | auto].
Qed.

Lemma column_width_ge (rows : list row) (r : row) :
  In r rows -> String.length (alias_of r) <= column_width rows.
Proof.
  destruct rows as [|r0 ms]; [contradiction|]. cbn [column_width].
  destruct (fold_left_max_ge
              (map (fun r => String.length (alias_of r)) ms)
              (String.length (alias_of r0))) as [H1 H2].
  intros [<- | Hin]; [exact H1|].
  apply H2. now apply (in_map (fun r => String.length (alias_of r))).
Qed.

(** X13: [show_suggestions] on at least one match returns normally and
    fills the list box with one line per match, in order, nothing
    selected.  Each line is the alias, padded with blanks to the length
    of the longest alias of the matches plus two, then " | ", then a
    preview of the content of at most 53 characters, which is the content
    itself when that has at most 50 characters and its first 50
    characters followed by "..." otherwise; so " | " starts at the same
    column on every line. *)
Theorem suggestion_lines_aligned (r : row) (ms : list row) (s : app) :
  let rows := r :: ms in
  let width := column_width rows in
  exists s',
    show_suggestions rows s = (Returned tt, s') /\
    lb_items (suggestion_listbox s') = map (display_text width) rows /\
    lb_selection (suggestion_listbox s') = [] /\
    current_suggestions s' = rows /\
    forall row, In row rows ->
      exists pad preview,
        display_text width row = alias_of row ++ Py.spaces pad ++ " | " ++ preview /\
        String.length (alias_of row) + pad = width + 2 /\
        String.length preview <= 53 /\
        (String.length (content_of row) <= 50 -> preview = content_of row) /\
        (50 < String.length (content_of row) ->
         preview = Py.slice_to 50 (content_of row) ++ "...").
Proof.
  intros rows width. unfold rows at 1. rewrite show_suggestions_rows.
  eexists. split; [reflexivity|]. cbn [suggestion_listbox lb_items lb_selection
                                        current_suggestions].
  repeat split.
  intros row Hin.
  pose proof (column_width_ge rows row Hin) as Hle. fold width in Hle.
  exists (width + 2 - String.length (alias_of row)).
  exists (Py.slice_to 50 (content_of row)
          ++ (if (50 <? String.length (content_of row))%nat then "..." else "")).
  split; [|split; [lia|]].
  - unfold display_text, Py.ljust. now rewrite string_append_assoc.
  - pose proof (slice_to_length 50 (content_of row)) as Hs.
    destruct (Nat.ltb_spec 50 (String.length (content_of row))) as [Hlong | Hshort].
    + rewrite string_length_append. cbn [String.length].
      split; [lia|]. split; [lia | reflexivity].
    + rewrite string_length_append. cbn [String.length].
      split; [lia|]. split; [|lia].
      intros _. rewrite slice_to_all by lia.
      clear. induction (content_of row) as [|c t IH]; cbn;
        [reflexivity | now rewrite IH].
Qed.

(** * Saving an alias *)

Lemma insert_or_update_aliases (a c : string) (table : list row) :
  (In a (aliases table) -> aliases (insert_or_update a c table) = aliases table) /\
  (~ In a (aliases table) ->
   aliases (insert_or_update a c table) = (aliases table ++ [a])%list).
Proof.
  unfold aliases. induction table as [|r table [IH1 IH2]]; cbn.
  - split; [contradiction | reflexivity].
  - destruct (String.eqb_spec (alias_of r) a) as [E | N]; cbn.
    + split; [reflexivity | intros H; exfalso; apply H; now left].
    + split.
      * intros [E | Hin]; [contradiction | now rewrite IH1].
      * intros H. rewrite IH2; [reflexivity | intros Hin; apply H; now right].
Qed.

Lemma insert_or_update_in (a c : string) (table : list row) :
  In (a, c) (insert_or_update a c table).
Proof.
  induction table as [|r table IH]; cbn; [now left|].
  destruct (String.eqb_spec (alias_of r) a) as [-> | N]; [now left | now right].
Qed.

Lemma insert_or_update_other (a c : string) (table : list row) (r : row) :
  alias_of r <> a ->
  In r (insert_or_update a c table) <-> In r table.
Proof.
  intros Hr. induction table as [|x table IH]; cbn.
  - split; [intros [<- | []]; now contradiction Hr | contradiction].
  - destruct (String.eqb_spec (alias_of x) a) as [E | N]; cbn.
    + split; intros [<- | H]; auto; contradiction Hr.
    + rewrite IH. reflexivity.
Qed.

Lemma insert_or_update_content (a c : string) (table : list row) (r : row) :
  NoDup (aliases table) ->
  In r (insert_or_update a c table) -> alias_of r = a -> content_of r = c.
Proof.
  unfold aliases. induction table as [|x table IH]; cbn; intros Hnd Hin Ha.
  - destruct Hin as [<- | []]. reflexivity.
  - apply NoDup_cons_iff in Hnd as [Hnotin Hnd'].
    destruct (String.eqb_spec (alias_of x) a) as [E | N].
    + destruct Hin as [<- | Hin]; [reflexivity|].
      exfalso. apply Hnotin. rewrite E, <- Ha. now apply in_map.
    + destruct Hin as [<- | Hin]; [contradiction | auto].
Qed.

Lemma insert_or_update_nodup (a c : string) (table : list row) :
  NoDup (aliases table) -> NoDup (aliases (insert_or_update a c table)).
Proof.
  intros Hnd. destruct (insert_or_update_aliases a c table) as [Hold Hnew].
  destruct (in_dec string_dec a (aliases table)) as [Hin | Hnotin].
  - now rewrite Hold.
  - rewrite Hnew by assumption.
    apply NoDup_app; [exact Hnd | now repeat constructor |].
    intros x Hx [<- | []]. contradiction.
Qed.

Lemma insert_or_update_length (a c : string) (table : list row) :
  (In a (aliases table) ->
   List.length (insert_or_update a c table) = List.length table) /\
  (~ In a (aliases table) ->
   List.length (insert_or_update a c table) = S (List.length table)).
Proof.
  destruct (insert_or_update_aliases a c table) as [Hold Hnew].
  split; intros H; [apply Hold in H | apply Hnew in H];
    apply (f_equal (@List.length string)) in H;
    unfold aliases in H; rewrite ?length_app, !length_map in H;
    cbn in H; lia.
Qed.

(** X14: a save that does not go through never clears the two input
    fields, never shows the success message and opens exactly one
    dialog.  With a blank alias or content (once stripped) the store is
    not touched and the dialog is the warning.  When the [INSERT] raises,
    the store and the listing are as before.  When [conn.commit()]
    raises, the listing is as before and the connection sees the new row
    unless SQLite rolled the transaction back.  When the query of
    [load_aliases()] raises, the row is stored and the listing is left
    empty.  In these three cases the dialog is the error
    "Failed to save alias: <message>". *)
Theorem save_alias_failures (table : list row) (calls : store_calls) (m : manager) :
  let a := Py.strip (alias_entry m) in
  let c := Py.strip (content_text_get m) in
  let table' := insert_or_update a c table in
  let result := save_alias table calls m in
  let kept (dlg : dialog) :=
    alias_entry (snd result) = alias_entry m /\
    content_text (snd result) = content_text m /\
    dialogs (snd result) = (dialogs m ++ [dlg])%list in
  let failed (message : string) :=
    kept (ShowError "Error" ("Failed to save alias: " ++ message)) in
  (a = "" \/ c = "" ->
   fst result = table /\ tree (snd result) = tree m /\
   kept (ShowWarning "Warning" "Both alias and content are required!")) /\
  (a <> "" -> c <> "" ->
   (forall message,
       on_insert calls = Some message ->
       fst result = table /\ tree (snd result) = tree m /\ failed message) /\
   (forall message rolled_back,
       on_insert calls = None ->
       on_commit calls = CommitRaises message rolled_back ->
       fst result = (if rolled_back then table else table') /\
       tree (snd result) = tree m /\ failed message) /\
   (forall message,
       on_insert calls = None ->
       on_commit calls = Committed ->
       on_select calls = Some message ->
       fst result = table' /\ tree (snd result) = [] /\ failed message)).
Proof.
  intros a c table' result kept failed.
  subst failed kept result table'. unfold save_alias. fold a c.
  split.
  - intros Hblank.
    assert (Hb : is_empty a || is_empty c = true)
      by (destruct Hblank as [-> | ->]; [reflexivity | apply orb_true_r]).
    rewrite Hb. cbn. auto.
  - intros Ha Hc.
    destruct a as [|x a']; [congruence|].
    destruct c as [|y c']; [congruence|].
    cbn [is_empty orb].
    split; [|split].
    + intros message ->. cbn. auto.
    + intros message rolled_back -> ->. cbn. auto.
    + intros message -> -> ->. cbn. auto.
Qed.

Lemma save_alias_failures_witness :
  (Py.strip (alias_entry (Manager "abc" "text" Sample.store [] [])) <> "" /\
   Py.strip (content_text_get (Manager "abc" "text" Sample.store [] [])) <> "") /\
  fst (save_alias Sample.store
         (StoreCalls None (CommitRaises "database is locked" false) None)
         (Manager "abc" "text" Sample.store [] []))
  = (Sample.store ++ [("abc", "text")])%list /\
  tree (snd (save_alias Sample.store
               (StoreCalls None Committed (Some "database is locked"))
               (Manager "abc" "text" Sample.store [] [])))
  = [].
Proof.
  assert (Ha : Py.strip (alias_entry (Manager "abc" "text" Sample.store [] []))
               <> "") by discriminate.
  assert (Hc : Py.strip (content_text_get (Manager "abc" "text" Sample.store [] []))
               <> "") by discriminate.
  split; [split; assumption|]. split.
  - destruct (proj2 (save_alias_failures Sample.store
                       (StoreCalls None (CommitRaises "database is locked" false) None)
                       (Manager "abc" "text" Sample.store [] [])) Ha Hc)
      as (_ & Hcommit & _).
    exact (proj1 (Hcommit "database is locked" false eq_refl eq_refl)).
  - destruct (proj2 (save_alias_failures Sample.store
                       (StoreCalls None Committed (Some "database is locked"))
                       (Manager "abc" "text" Sample.store [] [])) Ha Hc)
      as (_ & _ & Hselect).
    exact (proj1 (proj2 (Hselect "database is locked" eq_refl eq_refl eq_refl))).
Defined.

(** X15: when the [INSERT] and the commit go through on a store whose
    aliases are pairwise distinct, [save_alias] with a non-blank alias
    and content stores the stripped content under the stripped alias:
    afterwards that alias has exactly that content, the aliases are still
    pairwise distinct, every row of another alias (one that differs only
    in letter case included) is there as before and no other row has
    appeared, and the table has grown by one row if the alias was new
    and not at all otherwise. *)
Theorem save_alias_stores (table : list row) (calls : store_calls) (m : manager) :
  let a := Py.strip (alias_entry m) in
  let c := Py.strip (content_text_get m) in
  a <> "" -> c <> "" ->
  on_insert calls = None ->
  on_commit calls = Committed ->
  NoDup (aliases table) ->
  let table' := fst (save_alias table calls m) in
  table' = insert_or_update a c table /\
  In (a, c) table' /\
  (forall r, In r table' -> alias_of r = a -> content_of r = c) /\
  (forall r, alias_of r <> a -> (In r table' <-> In r table)) /\
  NoDup (aliases table') /\
  (In a (aliases table) -> List.length table' = List.length table) /\
  (~ In a (aliases table) -> List.length table' = S (List.length table)).
Proof.
  intros a c Ha Hc Hins Hcom Hnd table'.
  assert (Htable : table' = insert_or_update a c table).
  { subst table'. unfold save_alias. fold a c.
    destruct a as [|x a']; [congruence|].
    destruct c as [|y c']; [congruence|].
    cbn [is_empty orb]. rewrite Hins, Hcom.
    destruct (on_select calls); reflexivity. }
  rewrite Htable.
  split; [reflexivity|].
  split; [apply insert_or_update_in|].
  split; [intros r; now apply insert_or_update_content|].
  split; [intros r; now apply insert_or_update_other|].
  split; [now apply insert_or_update_nodup | apply insert_or_update_length].
Qed.

Lemma save_alias_stores_witness :
  (Py.strip (alias_entry (Manager " eml " "new@example.com" [] [] [])) <> "" /\
   Py.strip (content_text_get (Manager " eml " "new@example.com" [] [] [])) <> "" /\
   on_insert working = None /\
   on_commit working = Committed /\
   NoDup (aliases Sample.store)) /\
  fst (save_alias Sample.store working
         (Manager " eml " "new@example.com" [] [] []))
  = [("eml", "new@example.com"); ("em2", "alt@example.com")].
Proof.
  assert (Ha : Py.strip (alias_entry (Manager " eml " "new@example.com" [] [] []))
               <> "") by discriminate.
  assert (Hc : Py.strip (content_text_get
                           (Manager " eml " "new@example.com" [] [] []))
               <> "") by discriminate.
  assert (Hnd : NoDup (aliases Sample.store)).
  { repeat constructor; cbn; intuition discriminate. }
  split; [repeat split; assumption|].
  exact (proj1 (save_alias_stores Sample.store working
                  (Manager " eml " "new@example.com" [] [] [])
                  Ha Hc eq_refl eq_refl Hnd)).
Defined.

(** X16: after a successful [save_alias] the listing of the main window
    shows every row of the store once, in ascending lexical order of the
    alias, both input fields are empty, and the one dialog opened is the
    success message. *)
Theorem save_alias_refreshes_listing (table : list row) (m : manager) :
  Py.strip (alias_entry m) <> "" ->
  Py.strip (content_text_get m) <> "" ->
  exists table',
    fst (save_alias table working m) = table' /\
    let m' := snd (save_alias table working m) in
    Permutation (tree m') table' /\
    StronglySorted
      (fun r1 r2 => String.leb (alias_of r1) (alias_of r2) = true) (tree m') /\
    alias_entry m' = "" /\
    content_text m' = "" /\
    dialogs m'
    = (dialogs m ++ [ShowInfo "Success" "Alias saved successfully!"])%list.
Proof.
  intros Ha Hc. unfold save_alias.
  destruct (Py.strip (alias_entry m)) as [|x a']; [congruence|].
  destruct (Py.strip (content_text_get m)) as [|y c']; [congruence|].
  cbn [is_empty orb fst snd working on_insert on_commit on_select load_aliases].
  eexists. split; [reflexivity|].
  cbn. repeat split.
  - apply order_by_perm.
  - apply (order_by_sorted Sql.le_alias le_alias_total le_alias_trans).
Qed.

Lemma save_alias_refreshes_listing_witness :
  (Py.strip (alias_entry (Manager "abc" "text" [] [] [])) <> "" /\
   Py.strip (content_text_get (Manager "abc" "text" [] [] [])) <> "") /\
  tree (snd (save_alias Sample.store working (Manager "abc" "text" [] [] [])))
  = [("abc", "text"); ("em2", "alt@example.com"); ("eml", "me@example.com")].
Proof.
  assert (Ha : Py.strip (alias_entry (Manager "abc" "text" [] [] [])) <> "")
    by discriminate.
  assert (Hc : Py.strip (content_text_get (Manager "abc" "text" [] [] [])) <> "")
    by discriminate.
  split; [split; assumption|].
  destruct (save_alias_refreshes_listing Sample.store
              (Manager "abc" "text" [] [] []) Ha Hc) as (table' & _ & _).
  reflexivity.
Defined.

(** ** From the management window to the overlay *)

Lemma rstrip_idem (s : string) : Py.rstrip (Py.rstrip s) = Py.rstrip s.
Proof.
  induction s as [|c s IH]; [reflexivity|]. cbn [Py.rstrip].
  destruct (Py.rstrip s) as [|d r] eqn:E.
  - destruct (Py.isspace c) eqn:Hc; [reflexivity|].
    cbn [Py.rstrip]. now rewrite Hc.
  - cbn [Py.rstrip]. cbn [Py.rstrip] in IH.
    destruct (Py.rstrip r) as [|e r'] eqn:E';
      [destruct (Py.isspace d); [discriminate|] |]; now rewrite IH.
Qed.

(** A stripped text typed after "/" is the query as the handlers see it. *)
Lemma strip_trigger (x : string) :
  Py.strip (String "/" (Py.strip x)) = String "/" (Py.strip x).
Proof.
  unfold Py.strip at 1. cbn [Py.lstrip].
  change (Py.isspace "/") with false. cbn iota.
  cbn [Py.rstrip]. unfold Py.strip. rewrite rstrip_idem.
  destruct (Py.rstrip (Py.lstrip x)); reflexivity.
Qed.

Lemma select_exact_after_save (a c : string) (table : list row) :
  Py.lower a = Sql.LOWER a ->
  (forall r, In r table -> Sql.LOWER (alias_of r) = Sql.LOWER a -> alias_of r = a) ->
  Sql.select_exact (Py.lower a) (insert_or_update a c table) = Some c.
Proof.
  intros Hfold Hcase. rewrite Hfold. unfold Sql.select_exact.
  rewrite (find_pointwise _ (Spec.exact_match (Sql.LOWER a)))
    by (intros r; apply eq_nocase_is_exact_match, lower_idem).
  unfold Spec.exact_match, Spec.caseless.
  induction table as [|r table IH]; cbn.
  - now rewrite String.eqb_refl.
  - destruct (String.eqb_spec (alias_of r) a) as [E | N]; cbn.
    + now rewrite E, String.eqb_refl.
    + destruct (String.eqb_spec (Sql.LOWER (alias_of r)) (Sql.LOWER a)) as [E | _].
      * exfalso. apply N. apply Hcase; [now left | exact E].
      * apply IH. intros r' Hin. apply Hcase. now right.
Qed.

(** X17: what is saved is what is copied.  After a successful
    [save_alias] of a non-blank alias and content, where the alias holds
    no capital letter outside A to Z (Python's lower case of it is then
    what SQLite's [LOWER] makes of it) and no other stored alias equals
    it up to the case of the letters A to Z, typing "/" followed by that
    alias in the overlay and pressing Enter, store and clipboard working,
    copies exactly the saved content and hides the overlay, whether or
    not the alias contains [%] or [_]. *)
Theorem saved_alias_is_copied (table : list row) (m : manager) (s : app) :
  let a := Py.strip (alias_entry m) in
  let c := Py.strip (content_text_get m) in
  a <> "" -> c <> "" ->
  Py.lower a = Sql.LOWER a ->
  (forall r, In r table -> Sql.LOWER (alias_of r) = Sql.LOWER a -> alias_of r = a) ->
  quick_entry s = "/" ++ a ->
  let s' := exec (process_quick_input
                    (World (Db (fst (save_alias table working m))) None)) s in
  clipboard_writes (out s') = (clipboard_writes (out s) ++ [c])%list /\
  overlay s' = HIDDEN.
Proof.
  intros a c Ha Hc Hfold Hcase Hentry.
  assert (Hsave : fst (save_alias table working m) = insert_or_update a c table).
  { unfold save_alias. fold a c.
    destruct a; [congruence|]. destruct c; [congruence|]. reflexivity. }
  rewrite Hsave. intros s'.
  assert (Hquery : query_text s = String "/" a).
  { unfold query_text. rewrite Hentry. apply strip_trigger. }
  assert (Hq : is_query s = true) by (unfold is_query; now rewrite Hquery).
  assert (Hterm : search_text_of s = Py.lower a)
    by (unfold search_text_of; now rewrite Hquery).
  destruct (process_quick_input_copied
              (World (Db (insert_or_update a c table)) None) s
              (insert_or_update a c table) c eq_refl eq_refl Hq)
    as (Hcopy & Hov & _).
  - unfold resolve. rewrite Hterm, select_exact_after_save by assumption.
    reflexivity.
  - split; assumption.
Qed.

Lemma saved_alias_is_copied_witness :
  (Py.strip (alias_entry (Manager " a_% " "saved text" [] [] [])) <> "" /\
   Py.strip (content_text_get (Manager " a_% " "saved text" [] [] [])) <> "" /\
   Py.lower (Py.strip (alias_entry (Manager " a_% " "saved text" [] [] [])))
   = Sql.LOWER (Py.strip (alias_entry (Manager " a_% " "saved text" [] [] []))) /\
   quick_entry (Sample.typed "/a_%" Sample.shown)
   = "/" ++ Py.strip (alias_entry (Manager " a_% " "saved text" [] [] []))) /\
  clipboard_writes
    (out (exec (process_quick_input
                  (World (Db (fst (save_alias Sample.store working
                                     (Manager " a_% " "saved text" [] [] []))))
                     None))
            (Sample.typed "/a_%" Sample.shown)))
  = ["saved text"].
Proof.
  assert (Ha : Py.strip (alias_entry (Manager " a_% " "saved text" [] [] []))
               <> "") by discriminate.
  assert (Hc : Py.strip (content_text_get (Manager " a_% " "saved text" [] [] []))
               <> "") by discriminate.
  split; [repeat split; assumption|].
  refine (proj1 (saved_alias_is_copied Sample.store
                   (Manager " a_% " "saved text" [] [] [])
                   (Sample.typed "/a_%" Sample.shown) Ha Hc eq_refl _ eq_refl)).
  intros r [<- | [<- | []]]; discriminate.
Defined.
